(** * pr-nat-type: NAT classification from two STUN observations

    A shallow embedding of the two classifiers of the repository,

    - [GetNatType]: [src/getNatType.ts] ([judgeNatType] over two
      [CandidateInfo] records, and the orchestrating [getNatType]);
    - [Part000]: the earlier variant ([judgeNatType] over two arrays of
      ICE candidates, and its [getNatType] over two concurrent
      gatherings),

    followed by the properties of the specification, stated over these
    definitions.

    JavaScript values are modelled by what the TypeScript types allow:
    an optional [string] field is an [option string] ([None] is
    [undefined]), a nullable object is an [option] of its record, a
    string is a sequence of code units below 256.  A computation that
    may raise is a [completion]: either [Normal v] or [Throw e]. *)

From Stdlib Require Import String Ascii List Bool PeanoNat NArith.
From Stdlib Require Import Decimal DecimalString DecimalPos DecimalN.
Import ListNotations.

Local Open Scope string_scope.
Local Open Scope bool_scope.

(** ** JavaScript values and completions *)

Module Js.

Inductive Exception : Type :=
| TypeError              (* property read on [null] / [undefined] *)
| HostError (reason : string).  (* raised by the WebRTC host objects *)

Inductive completion (A : Type) : Type :=
| Normal (a : A)
| Throw (e : Exception).

Arguments Normal {A} a.
Arguments Throw {A} e.

Definition bind {A B} (c : completion A) (k : A -> completion B)
  : completion B :=
  match c with
  | Normal a => k a
  | Throw e => Throw e
  end.

(** [try { c } catch (err) { h err }] *)
Definition try_catch {A} (c : completion A)
           (h : Exception -> completion A) : completion A :=
  match c with
  | Normal a => Normal a
  | Throw e => h e
  end.

(** [o.f]: reading a property of [null] or [undefined] raises. *)
Definition prop {R V} (o : option R) (f : R -> V) : completion V :=
  match o with
  | Some r => Normal (f r)
  | None => Throw TypeError
  end.

(** [o?.f] for an optional field [f]: [undefined] when [o] is nullish. *)
Definition opt_chain {R V} (o : option R) (f : R -> option V) : option V :=
  match o with
  | Some r => f r
  | None => None
  end.

(** Truthiness of a [string | undefined]: the empty string and
    [undefined] are falsy, every other string is truthy. *)
Definition truthy (v : option string) : bool :=
  match v with
  | Some s => negb (s =? "")
  | None => false
  end.

(** [!o] for an object-or-null. *)
Definition not_obj {R} (o : option R) : bool :=
  match o with
  | Some _ => false
  | None => true
  end.

(** [v || ''] on a [string | undefined | null]. *)
Definition or_empty (v : option string) : string :=
  match v with
  | Some s => s
  | None => ""
  end.

(** Primitive types compared by value: strings and numbers. *)
Class Prim (V : Type) : Type := {
  prim_eqb : V -> V -> bool;
  prim_eqb_spec : forall x y, prim_eqb x y = true <-> x = y
}.

#[global] Instance Prim_string : Prim string :=
  {| prim_eqb := String.eqb; prim_eqb_spec := String.eqb_eq |}.

#[global] Instance Prim_number : Prim N :=
  {| prim_eqb := N.eqb; prim_eqb_spec := N.eqb_eq |}.

(** [===] on values that are a primitive of one type, or nullish. *)
Definition strict_eq {V} `{Prim V} (a b : option V) : bool :=
  match a, b with
  | Some x, Some y => prim_eqb x y
  | None, None => true
  | _, _ => false
  end.

(** [Number.prototype.toString] on a non-negative integer. *)
Definition toString (n : N) : string :=
  NilEmpty.string_of_uint (N.to_uint n).

(** [String.prototype.split] with a one-character separator. *)
Fixpoint split (sep : ascii) (s : string) : list string :=
  match s with
  | EmptyString => [EmptyString]
  | String c rest =>
      if Ascii.eqb c sep then EmptyString :: split sep rest
      else match split sep rest with
           | piece :: pieces => String c piece :: pieces
           | [] => [String c EmptyString]
           end
  end.

(** White space and line terminators among the code units below 256:
    TAB, LF, VT, FF, CR, SP and NBSP. *)
Definition is_white_space (c : ascii) : bool :=
  let n := N_of_ascii c in
  ((9 <=? n) && (n <=? 13) || (n =? 32) || (n =? 160))%N.

Fixpoint trim_start (s : string) : string :=
  match s with
  | EmptyString => EmptyString
  | String c rest => if is_white_space c then trim_start rest else s
  end.

Fixpoint trim_end (s : string) : string :=
  match s with
  | EmptyString => EmptyString
  | String c rest =>
      match trim_end rest with
      | EmptyString => if is_white_space c then EmptyString
                       else String c EmptyString
      | kept => String c kept
      end
  end.

(** [String.prototype.trim] *)
Definition trim (s : string) : string := trim_end (trim_start s).

End Js.

Import Js.

Declare Scope js_scope.
Delimit Scope js_scope with js.
Notation "x <- c ;; k" := (bind c (fun x => k))
  (at level 61, c at next level, right associativity) : js_scope.
Notation "a === b" := (strict_eq a b)
  (at level 70, no associativity) : js_scope.
Notation "a !== b" := (negb (strict_eq a b))
  (at level 70, no associativity) : js_scope.
Local Open Scope js_scope.

(** The five string literals of the [NatType] union. *)
Inductive NatType : Type :=
| FullCone
| RestrictedCone
| PortRestrictedCone
| Symmetric
| Unknown.

Definition NatType_literal (t : NatType) : string :=
  match t with
  | FullCone => "Full Cone"
  | RestrictedCone => "Restricted Cone"
  | PortRestrictedCone => "Port Restricted Cone"
  | Symmetric => "Symmetric"
  | Unknown => "Unknown"
  end.

(** The part of the DOM's [RTCIceCandidate] the code reads. *)
Module RTCIceCandidate.

Inductive CandidateType : Type := host | srflx | prflx | relay.

Record t : Type := mk {
  address : option string;      (* string | null *)
  port : option N;              (* number | null, an unsigned short *)
  type : option CandidateType   (* RTCIceCandidateType | null *)
}.

End RTCIceCandidate.

(** ** src/getNatType.ts *)

Module GetNatType.

Record CandidateInfo : Type := mkCandidateInfo {
  ip : option string;
  port : option string;
  serve_ip : option string;
  serve_port : option string
}.

Definition judgeNatType (info_1 info_2 : option CandidateInfo)
  : completion NatType :=
  if negb (truthy (opt_chain info_1 ip))
     || negb (truthy (opt_chain info_1 port))
     || negb (truthy (opt_chain info_1 serve_ip))
     || negb (truthy (opt_chain info_1 serve_port))
     || negb (truthy (opt_chain info_2 ip))
     || negb (truthy (opt_chain info_2 port))
     || negb (truthy (opt_chain info_2 serve_ip))
     || negb (truthy (opt_chain info_2 serve_port))
  then Normal Unknown
  else
    ip1 <- prop info_1 ip ;;
    port1 <- prop info_1 port ;;
    target1_ip <- prop info_1 serve_ip ;;
    target1_port <- prop info_1 serve_port ;;
    ip2 <- prop info_2 ip ;;
    port2 <- prop info_2 port ;;
    target2_ip <- prop info_2 serve_ip ;;
    target2_port <- prop info_2 serve_port ;;
    if (ip1 === ip2) && (port1 === port2) then Normal FullCone
    else
      let isIpFixedWithTarget1 :=
        (ip1 === target1_ip)
        && ((ip2 !== target1_ip) || (port2 !== port1)) in
      let isIpFixedWithTarget2 :=
        (ip2 === target2_ip)
        && ((ip1 !== target2_ip) || (port1 !== port2)) in
      if isIpFixedWithTarget1 || isIpFixedWithTarget2
      then Normal RestrictedCone
      else
        let isPortFixedWithTarget1 :=
          (ip1 === target1_ip) && (port1 === target1_port)
          && ((ip2 !== target1_ip) || (port2 !== target1_port)) in
        let isPortFixedWithTarget2 :=
          (ip2 === target2_ip) && (port2 === target2_port)
          && ((ip1 !== target2_ip) || (port1 !== target2_port)) in
        if isPortFixedWithTarget1 || isPortFixedWithTarget2
        then Normal PortRestrictedCone
        else Normal Symmetric.

Record NatResult : Type := mkNatResult {
  address : string;
  natType : NatType
}.

Definition STUN_SERVER_1 : string := "stun.cloudflare.com:3478".
Definition STUN_SERVER_2 : string := "stun.l.google.com:19302".

(** The body of [pc.onicecandidate] for [e.candidate = candidate]:
    [Some info] when it calls [resolve(info)], [None] when the event
    is ignored. *)
Definition onicecandidate (url : string)
           (candidate : option RTCIceCandidate.t) : option CandidateInfo :=
  match opt_chain candidate RTCIceCandidate.type with
  | Some RTCIceCandidate.srflx =>
      match candidate with
      | Some c =>
          let parts := map trim (split ":" url) in
          let serveIp := nth_error parts 0 in
          let servePort := nth_error parts 1 in
          Some {| ip := Some (or_empty (RTCIceCandidate.address c));
                  port := option_map toString (RTCIceCandidate.port c);
                  serve_ip := serveIp;
                  serve_port := servePort |}
      | None => None
      end
  | _ => None
  end.

(** What the WebRTC host does during one exchange, up to the moment
    the promise settles. *)
Inductive IceEvent : Type :=
| icecandidate (candidate : option RTCIceCandidate.t)
| offer_rejected.   (* [createOffer] or [setLocalDescription] rejects *)

Inductive Gathering : Type :=
| setup_throws (e : Exception)
    (* [new RTCPeerConnection] or [createDataChannel] throws *)
| events (before_timer : list IceEvent).
    (* the events delivered before the 5 s timer fires *)

(** The first call of [resolve] settles the promise; when no event
    resolved it, the timer does, with [null]. *)
Fixpoint first_resolve (url : string) (evs : list IceEvent)
  : option CandidateInfo :=
  match evs with
  | [] => None
  | icecandidate candidate :: later =>
      match onicecandidate url candidate with
      | Some candidateInfo => Some candidateInfo
      | None => first_resolve url later
      end
  | offer_rejected :: _ => None
  end.

(** [await getCandidateInfo(url)] *)
Definition getCandidateInfo (url : string) (run : Gathering)
  : completion (option CandidateInfo) :=
  match run with
  | setup_throws e => Throw e
  | events evs => Normal (first_resolve url evs)
  end.

(** [await getNatType()], the host's behaviour towards each STUN
    server being the input.  ([console.error] in the handler is not
    modelled.) *)
Definition getNatType (host : string -> Gathering) : completion NatResult :=
  try_catch
    (info1 <- getCandidateInfo STUN_SERVER_1 (host STUN_SERVER_1) ;;
     info2 <- getCandidateInfo STUN_SERVER_2 (host STUN_SERVER_2) ;;
     if not_obj info1 || not_obj info2
     then Normal {| address := ""; natType := Unknown |}
     else
       natType <- judgeNatType info1 info2 ;;
       info1_ip <- prop info1 ip ;;
       Normal {| address := or_empty info1_ip; natType := natType |})
    (fun err => Normal {| address := ""; natType := Unknown |}).

End GetNatType.

(** ** The earlier variant, over arrays of ICE candidates *)

Module Part000.

Import RTCIceCandidate.

(** [c1.address === c2.address && c1.port === c2.port] *)
Definition fullConeGuard (candidate_1 candidate_2 : option t)
  : completion bool :=
  a1 <- prop candidate_1 address ;;
  a2 <- prop candidate_2 address ;;
  if a1 === a2 then
    p1 <- prop candidate_1 port ;;
    p2 <- prop candidate_2 port ;;
    Normal (p1 === p2)
  else Normal false.

(** [c1.address === c2.address && c1.port !== c2.port], the guard of
    the 'Restricted Cone' assignment. *)
Definition restrictedGuard (candidate_1 candidate_2 : option t)
  : completion bool :=
  a1 <- prop candidate_1 address ;;
  a2 <- prop candidate_2 address ;;
  if a1 === a2 then
    p1 <- prop candidate_1 port ;;
    p2 <- prop candidate_2 port ;;
    Normal (p1 !== p2)
  else Normal false.

(** [c1.address === c2.address && c1.port !== c2.port], the guard of
    the 'Port Restricted Cone' assignment. *)
Definition portRestrictedGuard (candidate_1 candidate_2 : option t)
  : completion bool :=
  a1 <- prop candidate_1 address ;;
  a2 <- prop candidate_2 address ;;
  if a1 === a2 then
    p1 <- prop candidate_1 port ;;
    p2 <- prop candidate_2 port ;;
    Normal (p1 !== p2)
  else Normal false.

Definition judgeNatType (candidates_1 candidates_2 : list t)
  : completion NatType :=
  let candidate_1 := hd_error candidates_1 in
  let candidate_2 := hd_error candidates_2 in
  let natType := Symmetric in
  isFull <- fullConeGuard candidate_1 candidate_2 ;;
  let natType := if isFull then FullCone else natType in
  isRestricted <- restrictedGuard candidate_1 candidate_2 ;;
  let natType := if isRestricted then RestrictedCone else natType in
  isPortRestricted <- portRestrictedGuard candidate_1 candidate_2 ;;
  let natType := if isPortRestricted then PortRestrictedCone else natType in
  Normal natType.

(** *** [getNatType] of the variant

    The two calls of [getCandidates] run side by side; each owns an
    array [srflxCandidates], which its handler extends and with which
    it resolves its promise.  The array is shared with the awaiting
    code, and the handler keeps extending it after the promise has been
    resolved. *)

Inductive Conn : Type := conn_1 | conn_2.

Record Gatherer : Type := mkGatherer {
  srflxCandidates : list t;
  resolved : bool
}.

(** The body of [pc.onicecandidate] for [e.candidate = candidate]. *)
Definition onicecandidate (g : Gatherer) (candidate : option t) : Gatherer :=
  match candidate with
  | Some c =>
      match type c with
      | Some srflx =>
          {| srflxCandidates := srflxCandidates g ++ [c];
             resolved := resolved g |}
      | _ => g
      end
  | None =>
      if Nat.eqb (List.length (srflxCandidates g)) 0 then g
      else {| srflxCandidates := srflxCandidates g; resolved := true |}
  end.

(** What the host does: it delivers [icecandidate] events to the two
    connections in some order, and [createOffer] or
    [setLocalDescription] may reject (which is caught and logged). *)
Inductive HostEvent : Type :=
| icecandidate (who : Conn) (candidate : option t)
| offer_rejected (who : Conn).

Definition deliver (ev : HostEvent) (g1 g2 : Gatherer)
  : Gatherer * Gatherer :=
  match ev with
  | icecandidate conn_1 candidate => (onicecandidate g1 candidate, g2)
  | icecandidate conn_2 candidate => (g1, onicecandidate g2 candidate)
  | offer_rejected _ => (g1, g2)
  end.

(** [await Promise.all([getCandidates(), getCandidates()])]: the
    awaiting code resumes as soon as both promises are resolved, and
    then reads the two arrays as they are; [None] when the events run
    out before that, and the promise stays pending. *)
Fixpoint await_all (g1 g2 : Gatherer) (trace : list HostEvent)
  : option (list t * list t) :=
  if resolved g1 && resolved g2
  then Some (srflxCandidates g1, srflxCandidates g2)
  else match trace with
       | [] => None
       | ev :: later =>
           let (g1', g2') := deliver ev g1 g2 in
           await_all g1' g2' later
       end.

(** The events that reach a handler: when [new RTCPeerConnection] or
    [createDataChannel] throws inside the [async] executor of a
    connection, no handler is installed and its promise never settles. *)
Definition who_of (ev : HostEvent) : Conn :=
  match ev with
  | icecandidate who _ => who
  | offer_rejected who => who
  end.

Definition handled (setup_ok : Conn -> bool) (trace : list HostEvent)
  : list HostEvent :=
  filter (fun ev => setup_ok (who_of ev)) trace.

Inductive PromiseState (A : Type) : Type :=
| pending
| fulfilled (value : A)
| rejected (reason : Exception).

Arguments pending {A}.
Arguments fulfilled {A} value.
Arguments rejected {A} reason.

Definition settle {A} (c : completion A) : PromiseState A :=
  match c with
  | Normal a => fulfilled a
  | Throw e => rejected e
  end.

Record NatResult : Type := mkNatResult {
  address : option string;   (* string | null *)
  natType : NatType
}.

Definition getNatType (setup_ok : Conn -> bool) (trace : list HostEvent)
  : PromiseState NatResult :=
  let fresh := {| srflxCandidates := []; resolved := false |} in
  match await_all fresh fresh (handled setup_ok trace) with
  | None => pending
  | Some (candidates_1, candidates_2) =>
      settle
        (natType <- judgeNatType candidates_1 candidates_2 ;;
         let candidate := hd_error candidates_1 in
         address <- prop candidate RTCIceCandidate.address ;;
         Normal {| address := address; natType := natType |})
  end.

End Part000.

(** ** The vocabulary of the specification *)

Module Rules.

Import GetNatType.

(** A field is present and non-empty. *)
Definition present (f : option string) : Prop :=
  exists s, f = Some s /\ s <> "".

(** A field is missing, or is the empty string. *)
Definition missing (f : option string) : Prop :=
  f = None \/ f = Some "".

(** A valid observation: all four fields present and non-empty. *)
Definition valid (o : CandidateInfo) : Prop :=
  present (ip o) /\ present (port o)
  /\ present (serve_ip o) /\ present (serve_port o).

(** An observation lacking one of its four fields. *)
Definition incomplete (o : CandidateInfo) : Prop :=
  missing (ip o) \/ missing (port o)
  \/ missing (serve_ip o) \/ missing (serve_port o).

(** The same for an argument that may be nullish: no object at all
    lacks every field. *)
Definition lacking (i : option CandidateInfo) : Prop :=
  match i with
  | Some o => incomplete o
  | None => True
  end.

(** Rule 1: the two public endpoints are the same. *)
Definition SameMapping (a b : CandidateInfo) : Prop :=
  ip a = ip b /\ port a = port b.

(** Rule 2 as the specification words it: the public IP of [self] is
    its own target's IP, and the public endpoint of [other] differs
    from that of [self] in IP or in port. *)
Definition RestrictedAs (self other : CandidateInfo) : Prop :=
  ip self = serve_ip self
  /\ (ip other <> ip self \/ port other <> port self).

(** Rule 2 as the code computes it ([isIpFixedWithTarget1] for
    [self = info_1], [isIpFixedWithTarget2] for [self = info_2]). *)
Definition IpFixedWith (self other : CandidateInfo) : Prop :=
  ip self = serve_ip self
  /\ (ip other <> serve_ip self \/ port other <> port self).

(** Rule 3 ([isPortFixedWithTarget1], [isPortFixedWithTarget2]): the
    public endpoint of [self] is its own target, and the public
    endpoint of [other] differs from that target in IP or in port. *)
Definition PortFixedWith (self other : CandidateInfo) : Prop :=
  ip self = serve_ip self /\ port self = serve_port self
  /\ (ip other <> serve_ip self \/ port other <> serve_port self).

Definition Rule2 (a b : CandidateInfo) : Prop :=
  RestrictedAs a b \/ RestrictedAs b a.

Definition Rule3 (a b : CandidateInfo) : Prop :=
  PortFixedWith a b \/ PortFixedWith b a.

(** The observations of the specification's scenarios A, B and C. *)
Definition scenario_obs1 : CandidateInfo :=
  {| ip := Some "1.2.3.4"; port := Some "5000";
     serve_ip := Some "10.0.0.1"; serve_port := Some "3478" |}.

Definition scenarioA_obs2 : CandidateInfo :=
  {| ip := Some "1.2.3.4"; port := Some "5000";
     serve_ip := Some "10.0.0.2"; serve_port := Some "19302" |}.

Definition scenarioB_obs2 : CandidateInfo :=
  {| ip := Some "1.2.3.4"; port := Some "6001";
     serve_ip := Some "10.0.0.2"; serve_port := Some "19302" |}.

Definition scenarioC_obs2 : CandidateInfo :=
  {| ip := Some "1.2.3.4"; port := None;
     serve_ip := Some "10.0.0.2"; serve_port := Some "19302" |}.

(** An observation whose public IP is its own target's IP. *)
Definition loopback_obs1 : CandidateInfo :=
  {| ip := Some "10.0.0.1"; port := Some "3478";
     serve_ip := Some "10.0.0.1"; serve_port := Some "3478" |}.

(** The result of every failure path of [getNatType]. *)
Definition unknown_result : NatResult :=
  {| address := ""; natType := Unknown |}.

(** Server-reflexive candidates as the host may deliver them. *)
Definition srflx_5000 : RTCIceCandidate.t :=
  RTCIceCandidate.mk (Some "1.2.3.4") (Some 5000%N)
                     (Some RTCIceCandidate.srflx).

Definition srflx_6001 : RTCIceCandidate.t :=
  RTCIceCandidate.mk (Some "1.2.3.4") (Some 6001%N)
                     (Some RTCIceCandidate.srflx).

Definition srflx_no_port : RTCIceCandidate.t :=
  RTCIceCandidate.mk (Some "1.2.3.4") None
                     (Some RTCIceCandidate.srflx).

(** A host that answers the first exchange with a complete candidate
    and the second with a candidate whose port is [null]. *)
Definition host_second_without_port (url : string) : Gathering :=
  if url =? STUN_SERVER_1
  then events [icecandidate (Some srflx_5000)]
  else events [icecandidate (Some srflx_no_port)].

(** A host whose second exchange runs into the 5 s timer. *)
Definition host_second_times_out (url : string) : Gathering :=
  if url =? STUN_SERVER_1
  then events [icecandidate (Some srflx_5000)]
  else events [].

End Rules.

(** ** Vocabulary for the collectors *)

Module Collected.

Import GetNatType Rules.

(** The candidate of an event is a server-reflexive one. *)
Definition is_srflx (candidate : option RTCIceCandidate.t) : bool :=
  match opt_chain candidate RTCIceCandidate.type with
  | Some RTCIceCandidate.srflx => true
  | _ => false
  end.

(** An event of [getCandidateInfo] that leaves the promise pending. *)
Definition ignored (ev : IceEvent) : bool :=
  match ev with
  | GetNatType.icecandidate candidate => negb (is_srflx candidate)
  | GetNatType.offer_rejected => false
  end.

(** The character [c] occurs in [s]. *)
Fixpoint occurs (c : ascii) (s : string) : bool :=
  match s with
  | EmptyString => false
  | String c' rest => Ascii.eqb c' c || occurs c rest
  end.

(** The first server-reflexive candidate a connection of the variant
    receives. *)
Fixpoint first_srflx (who : Part000.Conn) (trace : list Part000.HostEvent)
  : option RTCIceCandidate.t :=
  match trace with
  | [] => None
  | Part000.icecandidate who' (Some c) :: later =>
      match who, who', RTCIceCandidate.type c with
      | Part000.conn_1, Part000.conn_1, Some RTCIceCandidate.srflx
      | Part000.conn_2, Part000.conn_2, Some RTCIceCandidate.srflx => Some c
      | _, _, _ => first_srflx who later
      end
  | _ :: later => first_srflx who later
  end.

(** The gathering of a connection of the variant comes to its end
    after a server-reflexive candidate: an end-of-candidates event
    reaches it when it has seen such a candidate ([seen] tells whether
    it has already). *)
Definition Conn_eqb (a b : Part000.Conn) : bool :=
  match a, b with
  | Part000.conn_1, Part000.conn_1 | Part000.conn_2, Part000.conn_2 => true
  | _, _ => false
  end.

Fixpoint ends_after_srflx (who : Part000.Conn) (seen : bool)
         (trace : list Part000.HostEvent) : bool :=
  match trace with
  | [] => false
  | Part000.icecandidate who' candidate :: later =>
      if Conn_eqb who who' then
        match candidate with
        | Some c => ends_after_srflx who (seen || is_srflx (Some c)) later
        | None => seen || ends_after_srflx who seen later
        end
      else ends_after_srflx who seen later
  | Part000.offer_rejected _ :: later => ends_after_srflx who seen later
  end.

(** The array of a gatherer has a candidate already; its promise is
    resolved, or will be by the events of [trace]. *)
Definition has_candidate (g : Part000.Gatherer) : bool :=
  negb (Nat.eqb (List.length (Part000.srflxCandidates g)) 0).

Definition settles (who : Part000.Conn) (g : Part000.Gatherer)
           (trace : list Part000.HostEvent) : bool :=
  Part000.resolved g || ends_after_srflx who (has_candidate g) trace.

(** The second connection of the variant fails at its set-up. *)
Definition second_setup_throws (who : Part000.Conn) : bool :=
  match who with
  | Part000.conn_1 => true
  | Part000.conn_2 => false
  end.

(** The observation with another target port. *)
Definition with_serve_port (o : CandidateInfo) (target_port : string)
  : CandidateInfo :=
  {| ip := ip o; port := port o;
     serve_ip := serve_ip o; serve_port := Some target_port |}.

(** A trace of the variant: both connections gather one candidate and
    end, the first then receives a late candidate. *)
Definition late_candidate_trace : list Part000.HostEvent :=
  [ Part000.icecandidate Part000.conn_1 (Some srflx_5000);
    Part000.icecandidate Part000.conn_1 None;
    Part000.icecandidate Part000.conn_1 (Some srflx_6001);
    Part000.icecandidate Part000.conn_2 (Some srflx_6001);
    Part000.icecandidate Part000.conn_2 None ].

(** A candidate that is not server-reflexive. *)
Definition host_candidate : RTCIceCandidate.t :=
  RTCIceCandidate.mk (Some "192.168.1.20") (Some 50000%N)
                     (Some RTCIceCandidate.host).

(** A host that delivers, besides the server-reflexive candidates,
    events which the handler ignores or which come too late. *)
Definition host_with_noise (url : string) : Gathering :=
  if url =? STUN_SERVER_1
  then events [GetNatType.icecandidate (Some host_candidate);
               GetNatType.icecandidate (Some srflx_5000);
               GetNatType.icecandidate None]
  else events [GetNatType.icecandidate (Some srflx_6001);
               GetNatType.offer_rejected].

End Collected.

Import GetNatType Rules Collected.

(** ** Properties of the JavaScript primitives *)

Section Primitives.

Context {V : Type} `{Prim V}.

Lemma strict_eq_reflect (a b : option V) : reflect (a = b) (a === b).
Proof.
  destruct a as [x|], b as [y|]; simpl;
    try (constructor; congruence).
  destruct (prim_eqb x y) eqn:E; constructor.
  - apply prim_eqb_spec in E. congruence.
  - intros [= ->]. rewrite (proj2 (prim_eqb_spec y y) eq_refl) in E.
    discriminate.
Qed.

Lemma strict_eq_refl (a : option V) : (a === a) = true.
Proof. destruct (strict_eq_reflect a a); congruence. Qed.

End Primitives.

Lemma truthy_present (f : option string) : truthy f = true <-> present f.
Proof.
  unfold truthy, present. destruct f as [s|].
  - destruct (String.eqb_spec s ""); simpl; split.
    + discriminate.
    + intros (s' & [= <-] & Hne). contradiction.
    + intros _. exists s. split; [reflexivity | assumption].
    + reflexivity.
  - split; [discriminate | intros (s & Hs & _); discriminate].
Qed.

Lemma truthy_missing (f : option string) : truthy f = false <-> missing f.
Proof.
  unfold truthy, missing. destruct f as [s|].
  - destruct (String.eqb_spec s ""); simpl; split; try congruence.
    + intros _. right. congruence.
    + intros [E | E]; congruence.
  - split; auto.
Qed.

(** ** The decision procedure of [judgeNatType] *)

Lemma valid_guard (a b : CandidateInfo) :
  valid a -> valid b ->
  negb (truthy (ip a)) || negb (truthy (port a))
  || negb (truthy (serve_ip a)) || negb (truthy (serve_port a))
  || negb (truthy (ip b)) || negb (truthy (port b))
  || negb (truthy (serve_ip b)) || negb (truthy (serve_port b)) = false.
Proof.
  intros (A1 & A2 & A3 & A4) (B1 & B2 & B3 & B4).
  apply truthy_present in A1, A2, A3, A4, B1, B2, B3, B4.
  rewrite A1, A2, A3, A4, B1, B2, B3, B4. reflexivity.
Qed.

Ltac by_strict_eq :=
  repeat match goal with
         | |- context [strict_eq ?x ?y] =>
             destruct (strict_eq_reflect x y); cbn [andb orb negb]
         end.

Lemma IpFixedWith_RestrictedAs (self other : CandidateInfo) :
  IpFixedWith self other <-> RestrictedAs self other.
Proof.
  unfold IpFixedWith, RestrictedAs.
  split; intros [E D]; (split; [exact E|]);
    [rewrite E | rewrite <- E]; exact D.
Qed.

Lemma PortFixedWith_IpFixedWith (self other : CandidateInfo) :
  PortFixedWith self other -> IpFixedWith self other.
Proof.
  unfold PortFixedWith, IpFixedWith.
  intros (Eip & Eport & D). split; [exact Eip|].
  rewrite Eport. exact D.
Qed.

(** On valid observations the four rules are tried in order. *)
Lemma judgeNatType_decision (a b : CandidateInfo) :
  valid a -> valid b ->
  (SameMapping a b
   /\ judgeNatType (Some a) (Some b) = Normal FullCone)
  \/ (~ SameMapping a b /\ (IpFixedWith a b \/ IpFixedWith b a)
      /\ judgeNatType (Some a) (Some b) = Normal RestrictedCone)
  \/ (~ SameMapping a b /\ ~ (IpFixedWith a b \/ IpFixedWith b a)
      /\ Rule3 a b
      /\ judgeNatType (Some a) (Some b) = Normal PortRestrictedCone)
  \/ (~ SameMapping a b /\ ~ (IpFixedWith a b \/ IpFixedWith b a)
      /\ ~ Rule3 a b
      /\ judgeNatType (Some a) (Some b) = Normal Symmetric).
Proof.
  intros Va Vb.
  unfold judgeNatType. cbn [opt_chain prop bind].
  rewrite (valid_guard a b Va Vb).
  unfold SameMapping, IpFixedWith, Rule3, PortFixedWith.
  by_strict_eq; intuition congruence.
Qed.

Lemma present_or_missing (f : option string) : present f \/ missing f.
Proof.
  destruct (truthy f) eqn:E.
  - left. now apply truthy_present.
  - right. now apply truthy_missing.
Qed.

Lemma valid_or_incomplete (o : CandidateInfo) : valid o \/ incomplete o.
Proof.
  unfold valid, incomplete.
  destruct (present_or_missing (ip o)), (present_or_missing (port o)),
    (present_or_missing (serve_ip o)), (present_or_missing (serve_port o));
    tauto.
Qed.

Lemma judgeNatType_lacking (i1 i2 : option CandidateInfo) :
  lacking i1 \/ lacking i2 -> judgeNatType i1 i2 = Normal Unknown.
Proof.
  intros L. unfold judgeNatType.
  destruct i1 as [a|], i2 as [b|]; cbn [opt_chain truthy negb orb];
    try reflexivity.
  - destruct L as [L | L]; unfold lacking, incomplete in L;
      repeat match type of L with
             | _ \/ _ => destruct L as [L | L]
             end;
      apply truthy_missing in L; rewrite L; cbn [negb orb];
      rewrite ?orb_true_r; reflexivity.
  - rewrite ?orb_true_r. reflexivity.
Qed.

(** Either some field is lacking and the answer is [Unknown], or both
    observations are valid objects. *)
Lemma judgeNatType_inputs (i1 i2 : option CandidateInfo) :
  ((lacking i1 \/ lacking i2) /\ judgeNatType i1 i2 = Normal Unknown)
  \/ (exists a b, i1 = Some a /\ i2 = Some b /\ valid a /\ valid b).
Proof.
  destruct i1 as [a|]; [| left; split;
    [left; exact I | apply judgeNatType_lacking; left; exact I]].
  destruct i2 as [b|]; [| left; split;
    [right; exact I | apply judgeNatType_lacking; right; exact I]].
  destruct (valid_or_incomplete a) as [Va | Ia];
    [| left; split; [left; exact Ia
                    | apply judgeNatType_lacking; left; exact Ia]].
  destruct (valid_or_incomplete b) as [Vb | Ib];
    [| left; split; [right; exact Ib
                    | apply judgeNatType_lacking; right; exact Ib]].
  right. exists a, b. auto.
Qed.

Lemma Rule2_IpFixedWith (a b : CandidateInfo) :
  Rule2 a b <-> IpFixedWith a b \/ IpFixedWith b a.
Proof.
  unfold Rule2. rewrite !IpFixedWith_RestrictedAs. reflexivity.
Qed.

Ltac show_valid :=
  repeat split; eexists; (split; [reflexivity | discriminate]).

(** ** Properties of the classifier of [src/getNatType.ts] *)

(** C1.  Two valid observations with equal public IPs and equal public
    ports classify as 'Full Cone', whatever their target IPs and target
    ports are. *)
Theorem full_cone_on_same_public_endpoint (a b : CandidateInfo) :
  valid a -> valid b ->
  ip a = ip b -> port a = port b ->
  judgeNatType (Some a) (Some b) = Normal FullCone.
Proof.
  intros Va Vb Eip Eport.
  destruct (judgeNatType_decision a b Va Vb)
    as [[_ J] | [[N _] | [[N _] | [N _]]]];
    [exact J | | |]; exfalso; apply N; split; assumption.
Qed.

(** Scenario A of the specification is an instance of C1. *)
Lemma scenario_A_full_cone :
  valid scenario_obs1 /\ valid scenarioA_obs2
  /\ judgeNatType (Some scenario_obs1) (Some scenarioA_obs2)
     = Normal FullCone.
Proof.
  assert (Va : valid scenario_obs1) by show_valid.
  assert (Vb : valid scenarioA_obs2) by show_valid.
  split; [exact Va | split; [exact Vb |]].
  apply (full_cone_on_same_public_endpoint scenario_obs1 scenarioA_obs2);
    [exact Va | exact Vb | reflexivity | reflexivity].
Defined.

(** C2.  For two valid observations that rule 1 does not classify as
    'Full Cone', the answer is 'Restricted Cone' exactly when, in one of
    the two orderings (self, other), the public IP of self is the IP of
    self's own target and the public endpoint of other differs from the
    public endpoint of self in IP or in port. *)
Theorem restricted_cone_iff_rule2 (a b : CandidateInfo) :
  valid a -> valid b -> ~ SameMapping a b ->
  (judgeNatType (Some a) (Some b) = Normal RestrictedCone
   <-> RestrictedAs a b \/ RestrictedAs b a).
Proof.
  intros Va Vb N1.
  fold (Rule2 a b). rewrite Rule2_IpFixedWith.
  destruct (judgeNatType_decision a b Va Vb)
    as [[S _] | [(_ & R & J) | [(_ & NR & _ & J) | (_ & NR & _ & J)]]];
    [contradiction | | |]; rewrite J; split; intros G;
    solve [assumption | reflexivity | discriminate | contradiction].
Qed.

(** An observation whose public IP is its target's IP, paired with one
    that has another public endpoint: 'Restricted Cone' by C2. *)
Lemma restricted_cone_instance :
  valid loopback_obs1 /\ valid scenarioB_obs2
  /\ ~ SameMapping loopback_obs1 scenarioB_obs2
  /\ judgeNatType (Some loopback_obs1) (Some scenarioB_obs2)
     = Normal RestrictedCone.
Proof.
  assert (Va : valid loopback_obs1) by show_valid.
  assert (Vb : valid scenarioB_obs2) by show_valid.
  assert (N1 : ~ SameMapping loopback_obs1 scenarioB_obs2)
    by (intros [E _]; discriminate E).
  split; [exact Va | split; [exact Vb | split; [exact N1 |]]].
  apply (restricted_cone_iff_rule2 loopback_obs1 scenarioB_obs2 Va Vb N1).
  left. split; [reflexivity | left; discriminate].
Defined.

(** C3.  On valid observations the rules are tried in the order 1, 2,
    3, 4 and the first that matches gives the answer; in particular,
    when neither rule 1 nor rule 2 matches, the answer is 'Port
    Restricted Cone' exactly when, in one of the two orderings, the
    public IP and port of self are the IP and port of self's own target
    while the public endpoint of other differs from that target in IP
    or in port. *)
Theorem port_restricted_cone_iff_rule3 (a b : CandidateInfo) :
  valid a -> valid b ->
  (SameMapping a b -> judgeNatType (Some a) (Some b) = Normal FullCone)
  /\ (~ SameMapping a b -> Rule2 a b ->
      judgeNatType (Some a) (Some b) = Normal RestrictedCone)
  /\ (~ SameMapping a b -> ~ Rule2 a b ->
      (judgeNatType (Some a) (Some b) = Normal PortRestrictedCone
       <-> PortFixedWith a b \/ PortFixedWith b a))
  /\ (~ SameMapping a b -> ~ Rule2 a b -> ~ Rule3 a b ->
      judgeNatType (Some a) (Some b) = Normal Symmetric).
Proof.
  intros Va Vb. fold (Rule3 a b). rewrite Rule2_IpFixedWith.
  destruct (judgeNatType_decision a b Va Vb)
    as [(S & J) | [(N1 & R & J) | [(N1 & NR & P & J) | (N1 & NR & NP & J)]]];
    rewrite J; repeat split; intros;
    solve [assumption | reflexivity | discriminate | contradiction].
Qed.

(** Scenario B matches neither rule 1 nor rule 2, and C3 then ties the
    answer 'Port Restricted Cone' to rule 3. *)
Lemma scenario_B_rule3 :
  valid scenario_obs1 /\ valid scenarioB_obs2
  /\ ~ SameMapping scenario_obs1 scenarioB_obs2
  /\ ~ Rule2 scenario_obs1 scenarioB_obs2
  /\ (judgeNatType (Some scenario_obs1) (Some scenarioB_obs2)
      = Normal PortRestrictedCone
      <-> PortFixedWith scenario_obs1 scenarioB_obs2
          \/ PortFixedWith scenarioB_obs2 scenario_obs1).
Proof.
  assert (Va : valid scenario_obs1) by show_valid.
  assert (Vb : valid scenarioB_obs2) by show_valid.
  assert (N1 : ~ SameMapping scenario_obs1 scenarioB_obs2)
    by (intros [_ E]; discriminate E).
  assert (N2 : ~ Rule2 scenario_obs1 scenarioB_obs2)
    by (intros [[E _] | [E _]]; discriminate E).
  split; [exact Va | split; [exact Vb | split; [exact N1 |
    split; [exact N2 |]]]].
  exact (proj1 (proj2 (proj2
    (port_restricted_cone_iff_rule3 scenario_obs1 scenarioB_obs2 Va Vb)))
    N1 N2).
Defined.

(** C4.  Two valid observations that match none of the rules 1 to 3
    classify as 'Symmetric'. *)
Theorem symmetric_when_no_rule_matches (a b : CandidateInfo) :
  valid a -> valid b ->
  ~ SameMapping a b -> ~ Rule2 a b -> ~ Rule3 a b ->
  judgeNatType (Some a) (Some b) = Normal Symmetric.
Proof.
  intros Va Vb N1 N2 N3. rewrite Rule2_IpFixedWith in N2.
  destruct (judgeNatType_decision a b Va Vb)
    as [(S & _) | [(_ & R & _) | [(_ & _ & P & _) | (_ & _ & _ & J)]]];
    [contradiction | contradiction | contradiction | exact J].
Qed.

(** Scenario B of the specification is an instance of C4. *)
Lemma scenario_B_symmetric :
  valid scenario_obs1 /\ valid scenarioB_obs2
  /\ ~ SameMapping scenario_obs1 scenarioB_obs2
  /\ ~ Rule2 scenario_obs1 scenarioB_obs2
  /\ ~ Rule3 scenario_obs1 scenarioB_obs2
  /\ judgeNatType (Some scenario_obs1) (Some scenarioB_obs2)
     = Normal Symmetric.
Proof.
  assert (Va : valid scenario_obs1) by show_valid.
  assert (Vb : valid scenarioB_obs2) by show_valid.
  assert (N1 : ~ SameMapping scenario_obs1 scenarioB_obs2)
    by (intros [_ E]; discriminate E).
  assert (N2 : ~ Rule2 scenario_obs1 scenarioB_obs2)
    by (intros [[E _] | [E _]]; discriminate E).
  assert (N3 : ~ Rule3 scenario_obs1 scenarioB_obs2)
    by (intros [[E _] | [E _]]; discriminate E).
  repeat (split; [assumption |]).
  exact (symmetric_when_no_rule_matches
           scenario_obs1 scenarioB_obs2 Va Vb N1 N2 N3).
Defined.

(** C5.  When one of the eight fields of the two observations is missing
    or is the empty string, the answer is 'Unknown', whatever the other
    observation holds (an observation that is no object at all
    included). *)
Theorem unknown_when_a_field_is_missing (i1 i2 : option CandidateInfo) :
  lacking i1 \/ lacking i2 ->
  judgeNatType i1 i2 = Normal Unknown.
Proof. exact (judgeNatType_lacking i1 i2). Qed.

(** Scenario C of the specification (no public port in the second
    observation) is an instance of C5. *)
Lemma scenario_C_unknown :
  missing (port scenarioC_obs2)
  /\ judgeNatType (Some scenario_obs1) (Some scenarioC_obs2)
     = Normal Unknown.
Proof.
  split; [left; reflexivity |].
  apply (unknown_when_a_field_is_missing
           (Some scenario_obs1) (Some scenarioC_obs2)).
  right. right. left. left. reflexivity.
Defined.

(** C6.  [judgeNatType] never answers 'Port Restricted Cone': the rule 3
    condition of an ordering implies the rule 2 condition of the same
    ordering, and rule 2 is tried first.  For every pair of inputs the
    answer is one of 'Unknown', 'Full Cone', 'Restricted Cone' and
    'Symmetric'. *)
Theorem port_restricted_cone_unreachable :
  (forall self other : CandidateInfo,
      PortFixedWith self other -> IpFixedWith self other)
  /\ (forall i1 i2 : option CandidateInfo,
         judgeNatType i1 i2 <> Normal PortRestrictedCone
         /\ In (judgeNatType i1 i2)
               [Normal Unknown; Normal FullCone;
                Normal RestrictedCone; Normal Symmetric]).
Proof.
  split; [exact PortFixedWith_IpFixedWith |].
  intros i1 i2.
  destruct (judgeNatType_inputs i1 i2)
    as [[_ J] | (a & b & -> & -> & Va & Vb)].
  - rewrite J. split; [discriminate | simpl; auto].
  - destruct (judgeNatType_decision a b Va Vb)
      as [(_ & J) | [(_ & _ & J) | [(_ & NR & P & _) | (_ & _ & _ & J)]]];
      try (rewrite J; split; [discriminate | simpl; auto 6]).
    exfalso. apply NR.
    destruct P as [P | P]; [left | right];
      exact (PortFixedWith_IpFixedWith _ _ P).
Qed.

(** An observation whose public endpoint is its own target satisfies
    the rule 3 condition, hence (C6) the rule 2 condition, and the
    answer is 'Restricted Cone'. *)
Lemma rule3_shadowed_instance :
  PortFixedWith loopback_obs1 scenarioB_obs2
  /\ IpFixedWith loopback_obs1 scenarioB_obs2
  /\ judgeNatType (Some loopback_obs1) (Some scenarioB_obs2)
     <> Normal PortRestrictedCone.
Proof.
  assert (P : PortFixedWith loopback_obs1 scenarioB_obs2)
    by (split; [reflexivity | split; [reflexivity | left; discriminate]]).
  split; [exact P | split].
  - exact (proj1 port_restricted_cone_unreachable _ _ P).
  - exact (proj1 (proj2 port_restricted_cone_unreachable
                    (Some loopback_obs1) (Some scenarioB_obs2))).
Defined.

(** C10.  [judgeNatType] is total and deterministic: on every pair of
    inputs (fields of any content, absent fields, no object at all) it
    completes normally with one of the five classes, never with an
    exception, and equal inputs give equal answers.  (Purity is built
    into the embedding: the answer is a function of the two arguments
    alone.) *)
Theorem judgeNatType_total_deterministic
        (i1 i2 j1 j2 : option CandidateInfo) :
  (exists t : NatType,
      judgeNatType i1 i2 = Normal t
      /\ In t [FullCone; RestrictedCone; PortRestrictedCone;
               Symmetric; Unknown])
  /\ (i1 = j1 -> i2 = j2 -> judgeNatType i1 i2 = judgeNatType j1 j2).
Proof.
  split.
  - assert (T : exists t, judgeNatType i1 i2 = Normal t).
    { destruct (judgeNatType_inputs i1 i2)
        as [[_ J] | (a & b & -> & -> & Va & Vb)].
      - eauto.
      - destruct (judgeNatType_decision a b Va Vb)
          as [(_ & J) | [(_ & _ & J) | [(_ & _ & _ & J) | (_ & _ & _ & J)]]];
          eauto. }
    destruct T as [t J]. exists t. split; [exact J |].
    destruct t; simpl; auto 6.
  - intros -> ->. reflexivity.
Qed.

(** C10 at an input with an absent field and at a missing object. *)
Lemma judgeNatType_total_instance :
  (exists t, judgeNatType (Some scenario_obs1) (Some scenarioC_obs2)
             = Normal t)
  /\ (exists t, judgeNatType None (Some scenarioC_obs2) = Normal t)
  /\ judgeNatType (Some scenario_obs1) None
     = judgeNatType (Some scenario_obs1) None.
Proof.
  split; [| split].
  - destruct (proj1 (judgeNatType_total_deterministic
                       (Some scenario_obs1) (Some scenarioC_obs2)
                       None None)) as (t & J & _).
    exists t. exact J.
  - destruct (proj1 (judgeNatType_total_deterministic
                       None (Some scenarioC_obs2) None None))
      as (t & J & _).
    exists t. exact J.
  - exact (proj2 (judgeNatType_total_deterministic
                    (Some scenario_obs1) None (Some scenario_obs1) None)
                 eq_refl eq_refl).
Defined.

(** ** Properties of the earlier variant *)

(** With a first candidate on each side the variant completes, and its
    answer depends on two comparisons only. *)
Lemma Part000_judgeNatType_cons
      (c1 c2 : RTCIceCandidate.t) (l1 l2 : list RTCIceCandidate.t) :
  Part000.judgeNatType (c1 :: l1) (c2 :: l2)
  = Normal (if RTCIceCandidate.address c1 === RTCIceCandidate.address c2
            then if RTCIceCandidate.port c1 === RTCIceCandidate.port c2
                 then FullCone
                 else PortRestrictedCone
            else Symmetric).
Proof.
  unfold Part000.judgeNatType, Part000.fullConeGuard,
    Part000.restrictedGuard, Part000.portRestrictedGuard.
  cbn [hd_error prop bind].
  destruct (RTCIceCandidate.address c1 === RTCIceCandidate.address c2);
    cbn [bind]; [| reflexivity].
  destruct (RTCIceCandidate.port c1 === RTCIceCandidate.port c2);
    reflexivity.
Qed.

(** Without a first candidate on one side, reading [address] raises. *)
Lemma Part000_judgeNatType_empty (l1 l2 : list RTCIceCandidate.t) :
  l1 = [] \/ l2 = [] ->
  Part000.judgeNatType l1 l2 = Throw TypeError.
Proof.
  intros [-> | ->]; [reflexivity |].
  destruct l1; reflexivity.
Qed.

(** C8.  In the earlier variant the guard of the 'Restricted Cone'
    assignment and the guard of the 'Port Restricted Cone' assignment
    are the same predicate, and the second assignment comes later: the
    variant never answers 'Restricted Cone'.  Whenever it answers, the
    answer is 'Full Cone', 'Port Restricted Cone' or 'Symmetric' (it
    answers as soon as both arrays have a first candidate), and each of
    the three is attained. *)
Theorem variant_never_restricted_cone :
  (forall c1 c2 : option RTCIceCandidate.t,
      Part000.restrictedGuard c1 c2 = Part000.portRestrictedGuard c1 c2)
  /\ (forall l1 l2 : list RTCIceCandidate.t,
         Part000.judgeNatType l1 l2 <> Normal RestrictedCone
         /\ In (Part000.judgeNatType l1 l2)
               [Normal FullCone; Normal PortRestrictedCone;
                Normal Symmetric; Throw TypeError])
  /\ (forall c1 c2 l1 l2,
         In (Part000.judgeNatType (c1 :: l1) (c2 :: l2))
            [Normal FullCone; Normal PortRestrictedCone; Normal Symmetric])
  /\ Part000.judgeNatType [srflx_5000] [srflx_5000] = Normal FullCone
  /\ Part000.judgeNatType [srflx_5000] [srflx_6001]
     = Normal PortRestrictedCone
  /\ Part000.judgeNatType
       [srflx_5000] [RTCIceCandidate.mk None (Some 5000%N) None]
     = Normal Symmetric.
Proof.
  assert (C : forall c1 c2 l1 l2,
             In (Part000.judgeNatType (c1 :: l1) (c2 :: l2))
                [Normal FullCone; Normal PortRestrictedCone;
                 Normal Symmetric]).
  { intros c1 c2 l1 l2. rewrite Part000_judgeNatType_cons.
    destruct (RTCIceCandidate.address c1 === RTCIceCandidate.address c2);
      [destruct (RTCIceCandidate.port c1 === RTCIceCandidate.port c2) |];
      simpl; auto. }
  split; [reflexivity |].
  split; [| split; [exact C | repeat split]].
  intros l1 l2.
  destruct l1 as [| c1 l1];
    [rewrite Part000_judgeNatType_empty by (left; reflexivity);
     split; [discriminate | simpl; auto] |].
  destruct l2 as [| c2 l2];
    [rewrite Part000_judgeNatType_empty by (right; reflexivity);
     split; [discriminate | simpl; auto] |].
  specialize (C c1 c2 l1 l2). simpl in C.
  split.
  - intros E. rewrite E in C.
    destruct C as [C | [C | [C | []]]]; discriminate C.
  - simpl. tauto.
Qed.

(** ** The two classifiers compared *)

(** C7.  The two classifiers are not extensionally equal.  Two
    server-reflexive candidates with the same address and different
    ports, turned into observations by [onicecandidate] for the two
    STUN servers, are valid observations which [judgeNatType] of
    [src/getNatType.ts] classifies as 'Symmetric', while the earlier
    variant classifies the candidates as 'Port Restricted Cone'. *)
Theorem classifiers_disagree :
  exists (c1 c2 : RTCIceCandidate.t) (i1 i2 : CandidateInfo),
    onicecandidate STUN_SERVER_1 (Some c1) = Some i1
    /\ onicecandidate STUN_SERVER_2 (Some c2) = Some i2
    /\ valid i1 /\ valid i2
    /\ judgeNatType (Some i1) (Some i2) = Normal Symmetric
    /\ Part000.judgeNatType [c1] [c2] = Normal PortRestrictedCone
    /\ judgeNatType (Some i1) (Some i2) <> Part000.judgeNatType [c1] [c2].
Proof.
  exists srflx_5000, srflx_6001.
  eexists. eexists.
  split; [reflexivity |]. split; [reflexivity |].
  split; [show_valid |]. split; [show_valid |].
  split; [reflexivity |]. split; [reflexivity |].
  discriminate.
Qed.

(** ** The orchestrator [getNatType] *)

(** The [try] block after the two collections have produced objects. *)
Lemma getNatType_both_objects (host : string -> Gathering)
      (a b : CandidateInfo) :
  getCandidateInfo STUN_SERVER_1 (host STUN_SERVER_1) = Normal (Some a) ->
  getCandidateInfo STUN_SERVER_2 (host STUN_SERVER_2) = Normal (Some b) ->
  exists t, judgeNatType (Some a) (Some b) = Normal t
            /\ getNatType host
               = Normal {| address := or_empty (ip a); natType := t |}.
Proof.
  intros E1 E2. unfold getNatType. rewrite E1, E2. cbn [bind not_obj orb].
  destruct (judgeNatType_inputs (Some a) (Some b))
    as [[_ J] | (a' & b' & [= <-] & [= <-] & Va & Vb)].
  - exists Unknown. rewrite J. split; reflexivity.
  - destruct (judgeNatType_decision a b Va Vb)
      as [(_ & J) | [(_ & _ & J) | [(_ & _ & _ & J) | (_ & _ & _ & J)]]];
      rewrite J; eexists; split; reflexivity.
Qed.

(** C9, as the specification states it, fails: when both collections
    produce an object and the second lacks its port, the class is
    'Unknown' but the address is the public IP of the first
    observation, not the empty string. *)
Lemma incomplete_observation_keeps_address :
  exists a b : CandidateInfo,
    getCandidateInfo STUN_SERVER_1 (host_second_without_port STUN_SERVER_1)
    = Normal (Some a)
    /\ getCandidateInfo STUN_SERVER_2
         (host_second_without_port STUN_SERVER_2)
       = Normal (Some b)
    /\ valid a /\ incomplete b
    /\ getNatType host_second_without_port
       = Normal {| address := "1.2.3.4"; natType := Unknown |}
    /\ getNatType host_second_without_port <> Normal unknown_result.
Proof.
  eexists. eexists.
  split; [reflexivity |]. split; [reflexivity |].
  split; [show_valid |].
  split; [right; left; left; reflexivity |].
  split; [reflexivity | discriminate].
Qed.

(** C9, amended.  [getNatType] always completes normally.  When a
    collection raises, or produces [null], the result is
    [{ address: '', natType: 'Unknown' }].  When both collections
    produce an object and one of them is incomplete, the class is
    'Unknown' and the address is the public IP of the first observation
    (the empty string when that field is absent). *)
Theorem getNatType_failure_paths (host : string -> Gathering) :
  (exists r, getNatType host = Normal r)
  /\ ((exists e, getCandidateInfo STUN_SERVER_1 (host STUN_SERVER_1)
                 = Throw e)
      \/ (exists e, getCandidateInfo STUN_SERVER_2 (host STUN_SERVER_2)
                    = Throw e) ->
      getNatType host = Normal unknown_result)
  /\ (getCandidateInfo STUN_SERVER_1 (host STUN_SERVER_1) = Normal None
      \/ getCandidateInfo STUN_SERVER_2 (host STUN_SERVER_2) = Normal None ->
      getNatType host = Normal unknown_result)
  /\ (forall a b : CandidateInfo,
         getCandidateInfo STUN_SERVER_1 (host STUN_SERVER_1)
         = Normal (Some a) ->
         getCandidateInfo STUN_SERVER_2 (host STUN_SERVER_2)
         = Normal (Some b) ->
         incomplete a \/ incomplete b ->
         getNatType host
         = Normal {| address := or_empty (ip a); natType := Unknown |}).
Proof.
  pose proof (getNatType_both_objects host) as Both.
  unfold getNatType in *.
  destruct (getCandidateInfo STUN_SERVER_1 (host STUN_SERVER_1))
    as [[a|] | e1];
    destruct (getCandidateInfo STUN_SERVER_2 (host STUN_SERVER_2))
    as [[b|] | e2];
    cbn [bind try_catch not_obj orb] in *;
    try (repeat split; intros;
         solve [eexists; reflexivity | reflexivity | discriminate
               | repeat match goal with
                   | H : _ \/ _ |- _ => destruct H
                   | H : exists _, _ |- _ => destruct H
                   end; discriminate]).
  destruct (Both a b eq_refl eq_refl) as (t & J & G).
  split; [eexists; exact G |].
  split; [intros [[e E] | [e E]]; discriminate E |].
  split; [intros [E | E]; discriminate E |].
  intros a' b' [= <-] [= <-] L.
  rewrite (judgeNatType_lacking (Some a) (Some b) L). reflexivity.
Qed.

(** Scenario D (the second STUN server times out) and the run with an
    incomplete second observation, as instances of the amended C9. *)
Lemma getNatType_failure_instances :
  getCandidateInfo STUN_SERVER_2 (host_second_times_out STUN_SERVER_2)
  = Normal None
  /\ getNatType host_second_times_out = Normal unknown_result
  /\ getNatType host_second_without_port
     = Normal {| address := "1.2.3.4"; natType := Unknown |}.
Proof.
  split; [reflexivity |].
  split.
  - apply (proj1 (proj2 (proj2
        (getNatType_failure_paths host_second_times_out)))).
    right. reflexivity.
  - apply (proj2 (proj2 (proj2
        (getNatType_failure_paths host_second_without_port)))
        {| ip := Some "1.2.3.4"; port := Some "5000";
           serve_ip := Some "stun.cloudflare.com";
           serve_port := Some "3478" |}
        {| ip := Some "1.2.3.4"; port := None;
           serve_ip := Some "stun.l.google.com";
           serve_port := Some "19302" |});
      [reflexivity | reflexivity |].
    right. right. left. left. reflexivity.
Defined.

(** ** Further properties of [judgeNatType] *)

(** X1.  The answer of [judgeNatType] does not depend on the order of
    its two arguments, whatever they are. *)
Theorem judgeNatType_order_independent (i1 i2 : option CandidateInfo) :
  judgeNatType i1 i2 = judgeNatType i2 i1.
Proof.
  destruct (judgeNatType_inputs i1 i2)
    as [[L J] | (a & b & -> & -> & Va & Vb)].
  - rewrite J. symmetry. apply judgeNatType_lacking. tauto.
  - unfold judgeNatType. cbn [opt_chain prop bind].
    rewrite (valid_guard a b Va Vb), (valid_guard b a Vb Va).
    by_strict_eq; congruence.
Qed.

(** The decision procedure with its redundant comparisons removed. *)
Lemma judgeNatType_simplified (a b : CandidateInfo) :
  valid a -> valid b ->
  judgeNatType (Some a) (Some b)
  = Normal (if (ip a === ip b) && (port a === port b) then FullCone
            else if (ip a === serve_ip a) || (ip b === serve_ip b)
                 then RestrictedCone
                 else Symmetric).
Proof.
  intros Va Vb. unfold judgeNatType. cbn [opt_chain prop bind].
  rewrite (valid_guard a b Va Vb).
  by_strict_eq; congruence.
Qed.

(** X2.  On valid observations the answer is 'Full Cone' when the two
    public endpoints coincide, otherwise 'Restricted Cone' when the
    public IP of one of the observations is the IP of its own target,
    otherwise 'Symmetric': the comparisons with the other observation
    in rules 2 and 3 and both target ports have no influence. *)
Theorem judgeNatType_closed_form (a b : CandidateInfo) :
  valid a -> valid b ->
  judgeNatType (Some a) (Some b)
  = Normal (if (ip a === ip b) && (port a === port b) then FullCone
            else if (ip a === serve_ip a) || (ip b === serve_ip b)
                 then RestrictedCone
                 else Symmetric).
Proof.
  intros Va Vb. unfold judgeNatType. cbn [opt_chain prop bind].
  rewrite (valid_guard a b Va Vb).
  destruct (strict_eq_reflect (ip a) (ip b)) as [Eip | Nip];
    destruct (strict_eq_reflect (port a) (port b)) as [Eport | Nport];
    cbn [andb]; try reflexivity;
    by_strict_eq; congruence.
Qed.

(** X2 on the pair of scenario B with a first observation whose public
    IP is its target's IP. *)
Lemma judgeNatType_closed_form_instance :
  valid loopback_obs1 /\ valid scenarioB_obs2
  /\ judgeNatType (Some loopback_obs1) (Some scenarioB_obs2)
     = Normal RestrictedCone.
Proof.
  assert (Va : valid loopback_obs1) by show_valid.
  assert (Vb : valid scenarioB_obs2) by show_valid.
  split; [exact Va | split; [exact Vb |]].
  exact (judgeNatType_closed_form loopback_obs1 scenarioB_obs2 Va Vb).
Defined.

Lemma valid_with_serve_port (o : CandidateInfo) (p : string) :
  valid o -> p <> "" -> valid (with_serve_port o p).
Proof.
  intros (V1 & V2 & V3 & _) Hp. unfold valid, with_serve_port. simpl.
  repeat (split; [assumption |]).
  exists p. split; [reflexivity | exact Hp].
Qed.

(** X3.  The target ports of valid observations do not influence the
    answer: replacing them by any non-empty strings leaves it
    unchanged. *)
Theorem judgeNatType_ignores_target_ports
        (a b : CandidateInfo) (p q : string) :
  valid a -> valid b -> p <> "" -> q <> "" ->
  judgeNatType (Some (with_serve_port a p)) (Some (with_serve_port b q))
  = judgeNatType (Some a) (Some b).
Proof.
  intros Va Vb Hp Hq.
  rewrite (judgeNatType_simplified a b Va Vb).
  rewrite (judgeNatType_simplified _ _
             (valid_with_serve_port a p Va Hp)
             (valid_with_serve_port b q Vb Hq)).
  reflexivity.
Qed.

(** X3 on an observation whose public endpoint is its own target: with
    other target ports the answer is the same. *)
Lemma judgeNatType_ignores_target_ports_instance :
  judgeNatType (Some (with_serve_port loopback_obs1 "80"))
               (Some (with_serve_port scenarioB_obs2 "443"))
  = judgeNatType (Some loopback_obs1) (Some scenarioB_obs2).
Proof.
  apply (judgeNatType_ignores_target_ports
           loopback_obs1 scenarioB_obs2 "80" "443");
    [show_valid | show_valid | discriminate | discriminate].
Defined.

(** ** The collector of [src/getNatType.ts] *)

Lemma split_without_separator (sep : ascii) (s : string) :
  occurs sep s = false -> split sep s = [s].
Proof.
  induction s as [| c s IH]; simpl; [reflexivity |].
  intros H. apply orb_false_iff in H as [Hc Hs].
  rewrite Hc, (IH Hs). reflexivity.
Qed.

Lemma split_at_first_separator (sep : ascii) (h rest : string) :
  occurs sep h = false ->
  split sep (h ++ String sep rest) = h :: split sep rest.
Proof.
  induction h as [| c h IH]; simpl.
  - intros _. rewrite Ascii.eqb_refl. reflexivity.
  - intros H. apply orb_false_iff in H as [Hc Hh].
    rewrite Hc, (IH Hh). reflexivity.
Qed.

Lemma toString_nonempty (n : N) : toString n <> "".
Proof.
  unfold toString. intros E.
  assert (Nil' : N.to_uint n = Nil)
    by (destruct (N.to_uint n); simpl in E; congruence).
  destruct n as [| p]; [discriminate Nil' |].
  exact (DecimalPos.Unsigned.to_uint_nonnil p Nil').
Qed.

Lemma toString_inj (n m : N) : toString n = toString m -> n = m.
Proof.
  unfold toString. intros E.
  apply (f_equal NilEmpty.uint_of_string) in E.
  rewrite !NilEmpty.usu in E. injection E as E.
  exact (DecimalN.Unsigned.to_uint_inj n m E).
Qed.

(** An observation that settles the promise comes from a
    server-reflexive candidate of the trace. *)
Lemma first_resolve_from_candidate
      (url : string) (evs : list IceEvent) (i : CandidateInfo) :
  first_resolve url evs = Some i ->
  exists c, In (GetNatType.icecandidate (Some c)) evs
            /\ is_srflx (Some c) = true
            /\ onicecandidate url (Some c) = Some i.
Proof.
  induction evs as [| ev evs IH]; simpl; [discriminate |].
  destruct ev as [candidate |]; [| discriminate].
  destruct (onicecandidate url candidate) as [i' |] eqn:E.
  - intros [= ->]. destruct candidate as [c |]; [| discriminate E].
    exists c. split; [left; reflexivity |]. split; [| exact E].
    unfold onicecandidate in E. unfold is_srflx.
    destruct (opt_chain (Some c) RTCIceCandidate.type) as [[] |];
      try discriminate E; reflexivity.
  - intros H. destruct (IH H) as (c & Hin & Hs & Ho).
    exists c. split; [right; exact Hin | split; assumption].
Qed.

Lemma onicecandidate_ignored (url : string)
      (candidate : option RTCIceCandidate.t) :
  is_srflx candidate = false -> onicecandidate url candidate = None.
Proof.
  unfold is_srflx, onicecandidate.
  destruct (opt_chain candidate RTCIceCandidate.type) as [[] |];
    try reflexivity; discriminate.
Qed.

Lemma first_resolve_skips (url : string) (pre evs : list IceEvent) :
  forallb ignored pre = true ->
  first_resolve url (pre ++ evs) = first_resolve url evs.
Proof.
  induction pre as [| ev pre IH]; simpl; [reflexivity |].
  intros H. apply andb_true_iff in H as [Hev Hpre].
  destruct ev as [candidate |]; [| discriminate Hev].
  simpl in Hev. apply negb_true_iff in Hev.
  rewrite (onicecandidate_ignored url candidate Hev). exact (IH Hpre).
Qed.

(** X4.  For a [url] of the form [host:port] the observation built from
    a server-reflexive candidate carries the trimmed [host] and [port]
    as its target, the candidate's address (or the empty string) as
    public IP and the decimal notation of the candidate's port, when it
    has one, as public port. *)
Theorem onicecandidate_observation
        (host port_ : string) (c : RTCIceCandidate.t) :
  occurs ":" host = false -> occurs ":" port_ = false ->
  RTCIceCandidate.type c = Some RTCIceCandidate.srflx ->
  onicecandidate (host ++ String ":" port_) (Some c)
  = Some {| ip := Some (or_empty (RTCIceCandidate.address c));
            port := option_map toString (RTCIceCandidate.port c);
            serve_ip := Some (trim host);
            serve_port := Some (trim port_) |}.
Proof.
  intros Hh Hp Ht. unfold onicecandidate. cbn [opt_chain]. rewrite Ht.
  rewrite (split_at_first_separator ":" host port_ Hh).
  rewrite (split_without_separator ":" port_ Hp). reflexivity.
Qed.

(** X4 at the first STUN server, with white space around the parts. *)
Lemma onicecandidate_observation_instance :
  onicecandidate " stun.cloudflare.com : 3478 " (Some srflx_5000)
  = Some {| ip := Some "1.2.3.4"; port := Some "5000";
            serve_ip := Some "stun.cloudflare.com";
            serve_port := Some "3478" |}.
Proof.
  exact (onicecandidate_observation
           " stun.cloudflare.com " " 3478 " srflx_5000
           eq_refl eq_refl eq_refl).
Defined.

(** X5.  When the [url] has no colon, every observation that
    [getCandidateInfo] produces lacks its target port, and
    [judgeNatType] answers 'Unknown' for it on either side. *)
Theorem url_without_colon_gives_unknown
        (url : string) (run : Gathering) (i : CandidateInfo)
        (other : option CandidateInfo) :
  occurs ":" url = false ->
  getCandidateInfo url run = Normal (Some i) ->
  serve_port i = None
  /\ judgeNatType (Some i) other = Normal Unknown
  /\ judgeNatType other (Some i) = Normal Unknown.
Proof.
  intros Hu Hrun.
  assert (P : serve_port i = None).
  { destruct run as [e | evs]; [discriminate Hrun |].
    simpl in Hrun. injection Hrun as Hrun.
    destruct (first_resolve_from_candidate url evs i Hrun)
      as (c & _ & Hs & Ho).
    unfold onicecandidate in Ho. unfold is_srflx in Hs.
    destruct (opt_chain (Some c) RTCIceCandidate.type) as [[] |];
      try discriminate Hs.
    rewrite (split_without_separator ":" url Hu) in Ho.
    injection Ho as <-. reflexivity. }
  assert (L : lacking (Some i)).
  { simpl. unfold incomplete, missing. rewrite P. tauto. }
  split; [exact P |].
  split; apply judgeNatType_lacking; [left | right]; exact L.
Qed.

(** X5 for a server address given without its port. *)
Lemma url_without_colon_instance :
  judgeNatType
    (Some {| ip := Some "1.2.3.4"; port := Some "5000";
             serve_ip := Some "stun.cloudflare.com";
             serve_port := None |})
    (Some scenarioB_obs2)
  = Normal Unknown.
Proof.
  exact (proj1 (proj2
    (url_without_colon_gives_unknown
       "stun.cloudflare.com"
       (events [GetNatType.icecandidate (Some srflx_5000)])
       _ (Some scenarioB_obs2) eq_refl eq_refl))).
Defined.

(** X6.  For a [url] [host:port] whose two parts are not blank, the
    observation built from a server-reflexive candidate is valid
    exactly when the candidate has a non-empty address and a port. *)
Theorem collected_observation_valid_iff
        (host port_ : string) (c : RTCIceCandidate.t) :
  occurs ":" host = false -> occurs ":" port_ = false ->
  trim host <> "" -> trim port_ <> "" ->
  RTCIceCandidate.type c = Some RTCIceCandidate.srflx ->
  exists i,
    onicecandidate (host ++ String ":" port_) (Some c) = Some i
    /\ (valid i <->
        (exists a, RTCIceCandidate.address c = Some a /\ a <> "")
        /\ RTCIceCandidate.port c <> None).
Proof.
  intros Hh Hp Th Tp Ht.
  unfold onicecandidate. cbn [opt_chain]. rewrite Ht.
  rewrite (split_at_first_separator ":" host port_ Hh).
  rewrite (split_without_separator ":" port_ Hp).
  eexists. split; [reflexivity |].
  unfold valid, present. cbn [ip port serve_ip serve_port map nth_error].
  split.
  - intros ((a & [= Ea] & Ha) & (p & Ep & _) & _). split.
    + destruct (RTCIceCandidate.address c) as [a' |]; simpl in Ea.
      * exists a'. subst a'. split; [reflexivity | exact Ha].
      * congruence.
    + intros E. rewrite E in Ep. discriminate Ep.
  - intros ((a & Ea & Ha) & Hport). rewrite Ea. cbn [or_empty].
    destruct (RTCIceCandidate.port c) as [n |]; [| congruence].
    cbn [option_map].
    repeat split; eexists; (split; [reflexivity |]);
      [exact Ha | apply toString_nonempty | exact Th | exact Tp].
Qed.

(** X6 at the second STUN server: a candidate without port gives an
    observation that is not valid. *)
Lemma collected_observation_valid_iff_instance :
  exists i,
    onicecandidate STUN_SERVER_2 (Some srflx_no_port) = Some i
    /\ ~ valid i.
Proof.
  destruct (collected_observation_valid_iff
              "stun.l.google.com" "19302" srflx_no_port
              eq_refl eq_refl)
    as (i & Hi & Hv);
    [discriminate | discriminate | reflexivity |].
  exists i. split; [exact Hi |].
  intros V. apply Hv in V. destruct V as [_ V]. apply V. reflexivity.
Defined.

(** X7.  Only the first resolution counts.  After events that the
    handler ignores (candidates that are not server-reflexive, the end
    of the candidates), the promise resolves with [null] when the timer
    fires or the offer is rejected, and with the observation of the
    first server-reflexive candidate otherwise; what the host delivers
    afterwards has no effect. *)
Theorem getCandidateInfo_first_resolution
        (url : string) (pre post : list IceEvent) :
  forallb ignored pre = true ->
  getCandidateInfo url (events pre) = Normal None
  /\ getCandidateInfo url (events (pre ++ GetNatType.offer_rejected :: post))
     = Normal None
  /\ (forall c, is_srflx (Some c) = true ->
      getCandidateInfo url
        (events (pre ++ GetNatType.icecandidate (Some c) :: post))
      = Normal (onicecandidate url (Some c))
      /\ onicecandidate url (Some c) <> None).
Proof.
  intros Hpre. unfold getCandidateInfo.
  split; [| split].
  - rewrite <- (app_nil_r pre), (first_resolve_skips url pre [] Hpre).
    reflexivity.
  - rewrite (first_resolve_skips url pre _ Hpre). reflexivity.
  - intros c Hc. rewrite (first_resolve_skips url pre _ Hpre).
    cbn [first_resolve].
    unfold is_srflx in Hc. unfold onicecandidate.
    destruct (opt_chain (Some c) RTCIceCandidate.type) as [[] |];
      try discriminate Hc.
    split; [reflexivity | discriminate].
Qed.

(** X7 on a run with a host candidate first and events after the
    server-reflexive one. *)
Lemma getCandidateInfo_first_resolution_instance :
  getCandidateInfo STUN_SERVER_1 (host_with_noise STUN_SERVER_1)
  = Normal (onicecandidate STUN_SERVER_1 (Some srflx_5000)).
Proof.
  exact (proj1 (proj2 (proj2
    (getCandidateInfo_first_resolution STUN_SERVER_1
       [GetNatType.icecandidate (Some host_candidate)]
       [GetNatType.icecandidate None] eq_refl))
    srflx_5000 eq_refl)).
Defined.

(** ** Further properties of [getNatType] *)

Lemma judgeNatType_valid_known (a b : CandidateInfo) :
  valid a -> valid b ->
  exists t, judgeNatType (Some a) (Some b) = Normal t
            /\ t <> Unknown /\ t <> PortRestrictedCone.
Proof.
  intros Va Vb. rewrite (judgeNatType_simplified a b Va Vb).
  eexists. split; [reflexivity |].
  destruct ((ip a === ip b) && (port a === port b));
    [| destruct ((ip a === serve_ip a) || (ip b === serve_ip b))];
    split; discriminate.
Qed.

Lemma or_empty_present (f : option string) :
  present f -> or_empty f <> "" /\ f = Some (or_empty f).
Proof. intros (s & -> & Hs). split; [exact Hs | reflexivity]. Qed.

(** X8.  Whatever the host does, a result of [getNatType] never
    carries 'Port Restricted Cone', and a result with an empty address
    carries 'Unknown': every other class comes with the address it was
    derived from. *)
Theorem getNatType_result_invariant
        (host : string -> Gathering) (r : NatResult) :
  getNatType host = Normal r ->
  natType r <> PortRestrictedCone
  /\ (address r = "" -> natType r = Unknown).
Proof.
  intros Hr.
  destruct (getCandidateInfo STUN_SERVER_1 (host STUN_SERVER_1))
    as [[a|] | e1] eqn:E1;
    destruct (getCandidateInfo STUN_SERVER_2 (host STUN_SERVER_2))
    as [[b|] | e2] eqn:E2;
    try (unfold getNatType in Hr; rewrite E1, ?E2 in Hr;
         cbn [bind try_catch not_obj orb] in Hr; injection Hr as <-;
         split; [discriminate | reflexivity]).
  destruct (getNatType_both_objects host a b E1 E2) as (t & J & G).
  rewrite G in Hr. injection Hr as <-. cbn [natType address].
  destruct (judgeNatType_inputs (Some a) (Some b))
    as [[_ JU] | (a' & b' & [= <-] & [= <-] & Va & Vb)].
  - rewrite JU in J. injection J as <-.
    split; [discriminate | reflexivity].
  - destruct (judgeNatType_valid_known a b Va Vb) as (t' & J' & _ & NP).
    rewrite J' in J. injection J as <-.
    split; [exact NP |].
    intros E. destruct Va as (Vip & _).
    destruct (or_empty_present _ Vip) as [Hne _]. contradiction.
Qed.

(** X8 on the run whose second candidate has no port. *)
Lemma getNatType_result_invariant_instance :
  exists r, getNatType host_second_without_port = Normal r
            /\ natType r <> PortRestrictedCone
            /\ (address r = "" -> natType r = Unknown).
Proof.
  exists {| address := "1.2.3.4"; natType := Unknown |}.
  split; [reflexivity |].
  exact (getNatType_result_invariant host_second_without_port
           {| address := "1.2.3.4"; natType := Unknown |} eq_refl).
Defined.

(** X9.  When both collections produce a valid observation,
    [getNatType] returns the public IP of the first observation, which
    is not empty, together with the answer of [judgeNatType], which is
    not 'Unknown'. *)
Theorem getNatType_success_path
        (host : string -> Gathering) (a b : CandidateInfo) :
  getCandidateInfo STUN_SERVER_1 (host STUN_SERVER_1) = Normal (Some a) ->
  getCandidateInfo STUN_SERVER_2 (host STUN_SERVER_2) = Normal (Some b) ->
  valid a -> valid b ->
  exists (public_ip : string) (t : NatType),
    ip a = Some public_ip /\ public_ip <> ""
    /\ judgeNatType (Some a) (Some b) = Normal t /\ t <> Unknown
    /\ getNatType host = Normal {| address := public_ip; natType := t |}.
Proof.
  intros E1 E2 Va Vb.
  destruct (getNatType_both_objects host a b E1 E2) as (t & J & G).
  destruct (judgeNatType_valid_known a b Va Vb) as (t' & J' & NU & _).
  rewrite J' in J. injection J as <-.
  destruct (or_empty_present (ip a) (proj1 Va)) as [Hne Hip].
  exists (or_empty (ip a)), t'.
  repeat split; assumption.
Qed.

(** X9 on a run with two complete candidates. *)
Lemma getNatType_success_path_instance :
  getNatType host_with_noise
  = Normal {| address := "1.2.3.4"; natType := Symmetric |}.
Proof.
  destruct (getNatType_success_path host_with_noise
              {| ip := Some "1.2.3.4"; port := Some "5000";
                 serve_ip := Some "stun.cloudflare.com";
                 serve_port := Some "3478" |}
              {| ip := Some "1.2.3.4"; port := Some "6001";
                 serve_ip := Some "stun.l.google.com";
                 serve_port := Some "19302" |}
              eq_refl eq_refl)
    as (public_ip & t & Hip & _ & J & _ & G);
    [show_valid | show_valid |].
  injection Hip as <-. injection J as <-. exact G.
Defined.

Lemma toString_eqb (n m : N) :
  (toString n =? toString m)%string = (n =? m)%N.
Proof.
  destruct (N.eqb_spec n m) as [-> | Hne].
  - apply String.eqb_refl.
  - apply String.eqb_neq. intros E. apply Hne, toString_inj, E.
Qed.

(** X10.  End to end: when, for each of the two STUN servers, the
    first event that is not ignored is a server-reflexive candidate
    with a non-empty address and a port, [getNatType] returns the
    address of the first candidate, with 'Full Cone' when the two
    candidates have the same address and the same port number,
    otherwise 'Restricted Cone' when the address of a candidate is the
    host name of its STUN server, otherwise 'Symmetric'. *)
Theorem getNatType_end_to_end
        (host : string -> Gathering)
        (pre1 post1 pre2 post2 : list IceEvent)
        (a1 a2 : string) (p1 p2 : N) :
  host STUN_SERVER_1
  = events (pre1 ++ GetNatType.icecandidate
                      (Some (RTCIceCandidate.mk
                               (Some a1) (Some p1)
                               (Some RTCIceCandidate.srflx))) :: post1) ->
  host STUN_SERVER_2
  = events (pre2 ++ GetNatType.icecandidate
                      (Some (RTCIceCandidate.mk
                               (Some a2) (Some p2)
                               (Some RTCIceCandidate.srflx))) :: post2) ->
  forallb ignored pre1 = true -> forallb ignored pre2 = true ->
  a1 <> "" -> a2 <> "" ->
  getNatType host
  = Normal {| address := a1;
              natType :=
                if (a1 =? a2)%string && (p1 =? p2)%N then FullCone
                else if (a1 =? "stun.cloudflare.com")%string
                        || (a2 =? "stun.l.google.com")%string
                     then RestrictedCone
                     else Symmetric |}.
Proof.
  intros H1 H2 Hpre1 Hpre2 Ha1 Ha2.
  set (i1 := {| ip := Some a1; port := Some (toString p1);
                serve_ip := Some "stun.cloudflare.com";
                serve_port := Some "3478" |}).
  set (i2 := {| ip := Some a2; port := Some (toString p2);
                serve_ip := Some "stun.l.google.com";
                serve_port := Some "19302" |}).
  assert (E1 : getCandidateInfo STUN_SERVER_1 (host STUN_SERVER_1)
               = Normal (Some i1)).
  { rewrite H1. unfold getCandidateInfo.
    rewrite (first_resolve_skips _ pre1 _ Hpre1). reflexivity. }
  assert (E2 : getCandidateInfo STUN_SERVER_2 (host STUN_SERVER_2)
               = Normal (Some i2)).
  { rewrite H2. unfold getCandidateInfo.
    rewrite (first_resolve_skips _ pre2 _ Hpre2). reflexivity. }
  assert (V1 : valid i1).
  { repeat split; eexists; (split; [reflexivity |]);
      [exact Ha1 | apply toString_nonempty | discriminate | discriminate]. }
  assert (V2 : valid i2).
  { repeat split; eexists; (split; [reflexivity |]);
      [exact Ha2 | apply toString_nonempty | discriminate | discriminate]. }
  destruct (getNatType_both_objects host i1 i2 E1 E2) as (t & J & G).
  rewrite G. rewrite (judgeNatType_simplified i1 i2 V1 V2) in J.
  injection J as <-. cbn [i1 i2 ip port serve_ip or_empty strict_eq
                            prim_eqb Prim_string].
  rewrite toString_eqb. reflexivity.
Qed.

(** X10 on a run with a host candidate before the first
    server-reflexive one and events after it. *)
Lemma getNatType_end_to_end_instance :
  getNatType host_with_noise
  = Normal {| address := "1.2.3.4"; natType := Symmetric |}.
Proof.
  exact (getNatType_end_to_end host_with_noise
           [GetNatType.icecandidate (Some host_candidate)]
           [GetNatType.icecandidate None]
           [] [GetNatType.offer_rejected]
           "1.2.3.4" "1.2.3.4" 5000 6001
           eq_refl eq_refl eq_refl eq_refl
           ltac:(discriminate) ltac:(discriminate)).
Defined.

(** ** Further properties of the earlier variant *)

Lemma strict_eq_sym {V} `{Prim V} (a b : option V) :
  (a === b) = (b === a).
Proof.
  destruct (strict_eq_reflect a b), (strict_eq_reflect b a);
    congruence.
Qed.

(** X11.  The variant's [judgeNatType] reads the first candidate of
    each array only.  When an array is empty it raises a [TypeError];
    otherwise it answers 'Symmetric' when the two addresses differ,
    'Full Cone' when addresses and ports agree, and 'Port Restricted
    Cone' when the addresses agree and the ports differ. *)
Theorem variant_judgeNatType_by_first_candidates
        (l1 l2 : list RTCIceCandidate.t) :
  Part000.judgeNatType l1 l2
  = match hd_error l1, hd_error l2 with
    | Some c1, Some c2 =>
        Normal
          (if RTCIceCandidate.address c1 === RTCIceCandidate.address c2
           then if RTCIceCandidate.port c1 === RTCIceCandidate.port c2
                then FullCone
                else PortRestrictedCone
           else Symmetric)
    | _, _ => Throw TypeError
    end.
Proof.
  destruct l1 as [| c1 l1];
    [apply Part000_judgeNatType_empty; left; reflexivity |].
  destruct l2 as [| c2 l2];
    [apply Part000_judgeNatType_empty; right; reflexivity |].
  apply Part000_judgeNatType_cons.
Qed.

(** X12.  The variant's [judgeNatType] does not depend on the order of
    its two arguments. *)
Theorem variant_judgeNatType_order_independent
        (l1 l2 : list RTCIceCandidate.t) :
  Part000.judgeNatType l1 l2 = Part000.judgeNatType l2 l1.
Proof.
  destruct l1 as [| c1 l1], l2 as [| c2 l2];
    rewrite ?Part000_judgeNatType_cons;
    rewrite ?Part000_judgeNatType_empty by (auto);
    try reflexivity.
  rewrite (strict_eq_sym (RTCIceCandidate.address c1)),
          (strict_eq_sym (RTCIceCandidate.port c1)).
  reflexivity.
Qed.

(** *** The variant's [getNatType] *)

(** A promise is resolved only with a non-empty array, and the handler
    keeps it that way. *)
Lemma onicecandidate_resolved_nonempty
      (g : Part000.Gatherer) (candidate : option RTCIceCandidate.t) :
  (Part000.resolved g = true -> Part000.srflxCandidates g <> []) ->
  Part000.resolved (Part000.onicecandidate g candidate) = true ->
  Part000.srflxCandidates (Part000.onicecandidate g candidate) <> [].
Proof.
  intros Inv. unfold Part000.onicecandidate.
  destruct candidate as [c |].
  - destruct (RTCIceCandidate.type c) as [[] |]; try exact Inv.
    simpl. intros _ E. apply app_eq_nil in E as [_ E]. discriminate E.
  - destruct (Part000.srflxCandidates g) as [| c l] eqn:E; simpl.
    + rewrite E. exact Inv.
    + intros _. discriminate.
Qed.

(** The handler appends: the first element of a non-empty array never
    changes, and an empty array takes the next server-reflexive
    candidate as its first element. *)
Lemma onicecandidate_head
      (g : Part000.Gatherer) (candidate : option RTCIceCandidate.t) :
  hd_error (Part000.srflxCandidates (Part000.onicecandidate g candidate))
  = match hd_error (Part000.srflxCandidates g) with
    | Some c => Some c
    | None => if is_srflx candidate then candidate else None
    end.
Proof.
  unfold Part000.onicecandidate, is_srflx.
  destruct candidate as [c |]; cbn [opt_chain].
  - destruct (RTCIceCandidate.type c) as [[] |];
      destruct (Part000.srflxCandidates g); reflexivity.
  - destruct (Part000.srflxCandidates g) eqn:E; simpl; rewrite ?E;
      reflexivity.
Qed.

(** The first element of an array once it is read: the one it has, or
    the first server-reflexive candidate still to come. *)
Lemma first_srflx_step_own
      (who : Part000.Conn) (candidate : option RTCIceCandidate.t)
      (later : list Part000.HostEvent) :
  first_srflx who (Part000.icecandidate who candidate :: later)
  = if is_srflx candidate then candidate else first_srflx who later.
Proof.
  unfold is_srflx. destruct candidate as [c |]; cbn [first_srflx opt_chain].
  - destruct who, (RTCIceCandidate.type c) as [[] |]; reflexivity.
  - reflexivity.
Qed.

Lemma first_srflx_step_other
      (who who' : Part000.Conn) (candidate : option RTCIceCandidate.t)
      (later : list Part000.HostEvent) :
  who <> who' ->
  first_srflx who (Part000.icecandidate who' candidate :: later)
  = first_srflx who later.
Proof.
  intros N. destruct candidate as [c |]; cbn [first_srflx].
  - destruct who, who', (RTCIceCandidate.type c) as [[] |];
      congruence.
  - reflexivity.
Qed.

Lemma await_all_heads (trace : list Part000.HostEvent) :
  forall (g1 g2 : Part000.Gatherer) (l1 l2 : list RTCIceCandidate.t),
    (Part000.resolved g1 = true -> Part000.srflxCandidates g1 <> []) ->
    (Part000.resolved g2 = true -> Part000.srflxCandidates g2 <> []) ->
    Part000.await_all g1 g2 trace = Some (l1, l2) ->
    exists c1 c2,
      hd_error l1 = Some c1 /\ hd_error l2 = Some c2
      /\ Some c1 = match hd_error (Part000.srflxCandidates g1) with
                   | Some c => Some c
                   | None => first_srflx Part000.conn_1 trace
                   end
      /\ Some c2 = match hd_error (Part000.srflxCandidates g2) with
                   | Some c => Some c
                   | None => first_srflx Part000.conn_2 trace
                   end.
Proof.
  induction trace as [| ev later IH]; intros g1 g2 l1 l2 I1 I2;
    cbn [Part000.await_all];
    destruct (Part000.resolved g1 && Part000.resolved g2) eqn:R;
    try discriminate;
    try (intros [= <- <-];
         apply andb_true_iff in R as [R1 R2];
         specialize (I1 R1); specialize (I2 R2);
         destruct (Part000.srflxCandidates g1) as [| c1 ?];
           [congruence |];
         destruct (Part000.srflxCandidates g2) as [| c2 ?];
           [congruence |];
         exists c1, c2; simpl; auto).
  destruct ev as [[|] candidate | who]; cbn [Part000.deliver]; intros H.
  - destruct (IH _ _ _ _
                (onicecandidate_resolved_nonempty g1 candidate I1) I2 H)
      as (c1 & c2 & H1 & H2 & F1 & F2).
    exists c1, c2. split; [exact H1 | split; [exact H2 |]].
    rewrite onicecandidate_head in F1.
    rewrite first_srflx_step_own,
      (first_srflx_step_other Part000.conn_2 Part000.conn_1)
      by discriminate.
    split; [| exact F2].
    destruct (hd_error (Part000.srflxCandidates g1)); [exact F1 |].
    destruct (is_srflx candidate) eqn:S; [| exact F1].
    destruct candidate; [exact F1 | discriminate S].
  - destruct (IH _ _ _ _ I1
                (onicecandidate_resolved_nonempty g2 candidate I2) H)
      as (c1 & c2 & H1 & H2 & F1 & F2).
    exists c1, c2. split; [exact H1 | split; [exact H2 |]].
    rewrite onicecandidate_head in F2.
    rewrite first_srflx_step_own,
      (first_srflx_step_other Part000.conn_1 Part000.conn_2)
      by discriminate.
    split; [exact F1 |].
    destruct (hd_error (Part000.srflxCandidates g2)); [exact F2 |].
    destruct (is_srflx candidate) eqn:S; [| exact F2].
    destruct candidate; [exact F2 | discriminate S].
  - destruct (IH _ _ _ _ I1 I2 H) as (c1 & c2 & H1 & H2 & F1 & F2).
    exists c1, c2. auto.
Qed.

Lemma settles_step_own
      (who : Part000.Conn) (g : Part000.Gatherer)
      (candidate : option RTCIceCandidate.t)
      (later : list Part000.HostEvent) :
  settles who g (Part000.icecandidate who candidate :: later)
  = settles who (Part000.onicecandidate g candidate) later.
Proof.
  unfold settles, has_candidate, Part000.onicecandidate.
  cbn [ends_after_srflx].
  replace (Conn_eqb who who) with true by (destruct who; reflexivity).
  destruct candidate as [c |]; unfold is_srflx; cbn [opt_chain].
  - destruct (RTCIceCandidate.type c) as [[] |];
      cbn [Part000.srflxCandidates Part000.resolved];
      rewrite ?orb_false_r; try reflexivity.
    rewrite orb_true_r, length_app, Nat.add_comm. reflexivity.
  - destruct (Part000.srflxCandidates g) as [| c l] eqn:E;
      cbn [List.length Nat.eqb negb orb]; rewrite ?E;
      cbn [Part000.srflxCandidates Part000.resolved List.length
           Nat.eqb negb orb];
      rewrite ?orb_true_r; reflexivity.
Qed.

Lemma settles_step_other
      (who : Part000.Conn) (g : Part000.Gatherer) (ev : Part000.HostEvent)
      (later : list Part000.HostEvent) :
  (forall candidate, ev <> Part000.icecandidate who candidate) ->
  settles who g (ev :: later) = settles who g later.
Proof.
  intros N. unfold settles. cbn [ends_after_srflx].
  destruct ev as [who' candidate | who']; [| reflexivity].
  destruct who, who'; cbn [Conn_eqb]; try reflexivity;
    exfalso; exact (N candidate eq_refl).
Qed.

(** The awaiting code stays suspended exactly when one of the two
    promises is not resolved by the events. *)
Lemma await_all_pending_iff (trace : list Part000.HostEvent) :
  forall g1 g2 : Part000.Gatherer,
    Part000.await_all g1 g2 trace = None
    <-> settles Part000.conn_1 g1 trace
        && settles Part000.conn_2 g2 trace = false.
Proof.
  induction trace as [| ev later IH]; intros g1 g2;
    cbn [Part000.await_all];
    destruct (Part000.resolved g1 && Part000.resolved g2) eqn:R.
  - apply andb_true_iff in R as [R1 R2]. unfold settles.
    rewrite R1, R2. split; discriminate.
  - unfold settles. cbn [ends_after_srflx]. rewrite !orb_false_r, R.
    split; reflexivity.
  - apply andb_true_iff in R as [R1 R2]. unfold settles.
    rewrite R1, R2. split; discriminate.
  - destruct ev as [[|] candidate | who]; cbn [Part000.deliver];
      rewrite IH.
    + rewrite <- settles_step_own.
      rewrite (settles_step_other Part000.conn_2 g2
                 (Part000.icecandidate Part000.conn_1 candidate))
        by discriminate.
      reflexivity.
    + rewrite <- settles_step_own.
      rewrite (settles_step_other Part000.conn_1 g1
                 (Part000.icecandidate Part000.conn_2 candidate))
        by discriminate.
      reflexivity.
    + rewrite !(settles_step_other _ _ (Part000.offer_rejected who))
        by discriminate.
      reflexivity.
Qed.

Lemma first_srflx_handled
      (setup_ok : Part000.Conn -> bool) (who : Part000.Conn)
      (trace : list Part000.HostEvent) :
  first_srflx who (Part000.handled setup_ok trace)
  = if setup_ok who then first_srflx who trace else None.
Proof.
  induction trace as [| ev later IH]; cbn [Part000.handled filter].
  - destruct (setup_ok who); reflexivity.
  - fold (Part000.handled setup_ok later).
    destruct ev as [who' candidate | who']; cbn [Part000.who_of].
    + destruct (setup_ok who') eqn:S'.
      * destruct who, who';
          rewrite ?first_srflx_step_own,
            ?(first_srflx_step_other Part000.conn_1 Part000.conn_2),
            ?(first_srflx_step_other Part000.conn_2 Part000.conn_1)
            by discriminate;
          rewrite ?IH, ?S'; try reflexivity;
          destruct (is_srflx candidate); reflexivity
          || (destruct (setup_ok _); reflexivity).
      * rewrite IH. destruct (setup_ok who) eqn:S; [| reflexivity].
        symmetry. apply first_srflx_step_other. congruence.
    + destruct (setup_ok who'); cbn [first_srflx]; exact IH.
Qed.

(** The variant's [getNatType] stays pending, or is fulfilled with the
    address of the first server-reflexive candidate of the first
    connection and the class of the two first candidates. *)
Lemma variant_getNatType_outcome
      (setup_ok : Part000.Conn -> bool) (trace : list Part000.HostEvent) :
  Part000.getNatType setup_ok trace = Part000.pending
  \/ exists c1 c2 t,
      first_srflx Part000.conn_1 (Part000.handled setup_ok trace) = Some c1
      /\ first_srflx Part000.conn_2 (Part000.handled setup_ok trace)
         = Some c2
      /\ Part000.judgeNatType [c1] [c2] = Normal t
      /\ Part000.getNatType setup_ok trace
         = Part000.fulfilled
             {| Part000.address := RTCIceCandidate.address c1;
                Part000.natType := t |}.
Proof.
  unfold Part000.getNatType.
  destruct (Part000.await_all _ _ (Part000.handled setup_ok trace))
    as [[l1 l2] |] eqn:A; [right | left; reflexivity].
  apply await_all_heads in A; try (simpl; discriminate).
  destruct A as (c1 & c2 & H1 & H2 & F1 & F2). simpl in F1, F2.
  destruct l1 as [| c1' l1]; [discriminate H1 |].
  destruct l2 as [| c2' l2]; [discriminate H2 |].
  injection H1 as ->. injection H2 as ->.
  exists c1, c2. eexists.
  split; [symmetry; exact F1 | split; [symmetry; exact F2 |]].
  rewrite !Part000_judgeNatType_cons. split; reflexivity.
Qed.

(** X13.  The variant's [getNatType] never rejects: the [TypeError]
    that [judgeNatType] raises on an empty array cannot arise, because
    a promise is resolved only with a non-empty array.  When the
    promise is fulfilled, the address is that of the first
    server-reflexive candidate of the first connection and the class is
    that of the first server-reflexive candidates of the two
    connections, whatever the handlers appended to the shared arrays
    before they were read. *)
Theorem variant_getNatType_outcome_by_first_candidates
        (setup_ok : Part000.Conn -> bool)
        (trace : list Part000.HostEvent) :
  match Part000.getNatType setup_ok trace with
  | Part000.pending => True
  | Part000.rejected _ => False
  | Part000.fulfilled r =>
      exists c1 c2,
        first_srflx Part000.conn_1 (Part000.handled setup_ok trace)
        = Some c1
        /\ first_srflx Part000.conn_2 (Part000.handled setup_ok trace)
           = Some c2
        /\ Part000.address r = RTCIceCandidate.address c1
        /\ Part000.judgeNatType [c1] [c2] = Normal (Part000.natType r)
  end.
Proof.
  destruct (variant_getNatType_outcome setup_ok trace)
    as [P | (c1 & c2 & t & F1 & F2 & J & G)].
  - rewrite P. exact I.
  - rewrite G. exists c1, c2. cbn [Part000.address Part000.natType].
    repeat split; assumption.
Qed.

(** X13 on a trace where the first connection receives another
    candidate after its promise was resolved. *)
Lemma variant_getNatType_outcome_instance :
  exists r,
    Part000.getNatType (fun _ => true) late_candidate_trace
    = Part000.fulfilled r
    /\ Part000.address r = Some "1.2.3.4"
    /\ Part000.natType r = PortRestrictedCone.
Proof.
  pose proof (variant_getNatType_outcome_by_first_candidates
                (fun _ => true) late_candidate_trace) as H.
  destruct (Part000.getNatType (fun _ => true) late_candidate_trace)
    as [| r | e] eqn:G; [discriminate G | | contradiction H].
  destruct H as (c1 & c2 & F1 & F2 & A & J).
  injection F1 as <-. injection F2 as <-. injection J as J.
  exists r. split; [reflexivity | split; [exact A | symmetry; exact J]].
Defined.

(** X14.  The variant's [getNatType] has no timer: it stays pending
    exactly when, for one of the two connections, no end-of-candidates
    event comes after a server-reflexive candidate among the events
    that reach its handler. *)
Theorem variant_getNatType_pending_iff
        (setup_ok : Part000.Conn -> bool)
        (trace : list Part000.HostEvent) :
  Part000.getNatType setup_ok trace = Part000.pending
  <-> ends_after_srflx Part000.conn_1 false
        (Part000.handled setup_ok trace)
      && ends_after_srflx Part000.conn_2 false
           (Part000.handled setup_ok trace) = false.
Proof.
  rewrite <- (await_all_pending_iff (Part000.handled setup_ok trace)
                {| Part000.srflxCandidates := [];
                   Part000.resolved := false |}
                {| Part000.srflxCandidates := [];
                   Part000.resolved := false |}).
  unfold Part000.getNatType.
  destruct (Part000.await_all _ _ (Part000.handled setup_ok trace))
    as [[l1 l2] |]; [| split; reflexivity].
  split; [| discriminate].
  destruct (Part000.judgeNatType l1 l2); cbn [bind Part000.settle];
    [destruct (prop (hd_error l1) RTCIceCandidate.address) |];
    discriminate.
Qed.

(** X14 on a trace whose second connection never sees the end of its
    candidates. *)
Lemma variant_getNatType_pending_iff_instance :
  Part000.getNatType (fun _ => true)
    [Part000.icecandidate Part000.conn_1 (Some srflx_5000);
     Part000.icecandidate Part000.conn_1 None;
     Part000.icecandidate Part000.conn_2 (Some srflx_6001)]
  = Part000.pending.
Proof.
  apply (proj2 (variant_getNatType_pending_iff (fun _ => true) _)).
  reflexivity.
Defined.

(** X15.  When the set-up of a connection throws, or a connection
    receives no server-reflexive candidate, the variant's [getNatType]
    never settles. *)
Theorem variant_getNatType_hangs
        (setup_ok : Part000.Conn -> bool)
        (trace : list Part000.HostEvent) (who : Part000.Conn) :
  setup_ok who = false \/ first_srflx who trace = None ->
  Part000.getNatType setup_ok trace = Part000.pending.
Proof.
  intros H.
  assert (N : first_srflx who (Part000.handled setup_ok trace) = None).
  { rewrite first_srflx_handled.
    destruct H as [-> | ->]; [| destruct (setup_ok who)]; reflexivity. }
  destruct (variant_getNatType_outcome setup_ok trace)
    as [P | (c1 & c2 & t & F1 & F2 & _)]; [exact P |].
  destruct who; congruence.
Qed.

(** X15 when the set-up of the second connection throws, and when the
    second connection only receives a host candidate. *)
Lemma variant_getNatType_hangs_instance :
  Part000.getNatType second_setup_throws late_candidate_trace
  = Part000.pending
  /\ Part000.getNatType (fun _ => true)
       [Part000.icecandidate Part000.conn_1 (Some srflx_5000);
        Part000.icecandidate Part000.conn_1 None;
        Part000.icecandidate Part000.conn_2 (Some host_candidate);
        Part000.icecandidate Part000.conn_2 None]
     = Part000.pending.
Proof.
  split.
  - apply (variant_getNatType_hangs second_setup_throws
             late_candidate_trace Part000.conn_2).
    left. reflexivity.
  - apply (variant_getNatType_hangs (fun _ => true) _ Part000.conn_2).
    right. reflexivity.
Defined.

(** ** Where the two classifiers agree *)

(** X16.  Take two server-reflexive candidates with non-empty
    addresses and with ports, neither address being the host name of
    the STUN server.  The classifier of [src/getNatType.ts], on the
    observations built from them for the two STUN servers, and the
    earlier variant, on the candidates themselves, give the same answer
    unless the addresses are equal and the ports differ; then the first
    says 'Symmetric' and the variant 'Port Restricted Cone'. *)
Theorem classifiers_agree_iff (a1 a2 : string) (p1 p2 : N) :
  a1 <> "" -> a2 <> "" ->
  a1 <> "stun.cloudflare.com" -> a2 <> "stun.l.google.com" ->
  let c1 := RTCIceCandidate.mk (Some a1) (Some p1)
                               (Some RTCIceCandidate.srflx) in
  let c2 := RTCIceCandidate.mk (Some a2) (Some p2)
                               (Some RTCIceCandidate.srflx) in
  (judgeNatType (onicecandidate STUN_SERVER_1 (Some c1))
                (onicecandidate STUN_SERVER_2 (Some c2))
   = Part000.judgeNatType [c1] [c2]
   <-> ~ (a1 = a2 /\ p1 <> p2))
  /\ (a1 = a2 -> p1 <> p2 ->
      judgeNatType (onicecandidate STUN_SERVER_1 (Some c1))
                   (onicecandidate STUN_SERVER_2 (Some c2))
      = Normal Symmetric
      /\ Part000.judgeNatType [c1] [c2] = Normal PortRestrictedCone).
Proof.
  intros Ha1 Ha2 Hs1 Hs2 c1 c2.
  set (i1 := {| ip := Some a1; port := Some (toString p1);
                serve_ip := Some "stun.cloudflare.com";
                serve_port := Some "3478" |}).
  set (i2 := {| ip := Some a2; port := Some (toString p2);
                serve_ip := Some "stun.l.google.com";
                serve_port := Some "19302" |}).
  change (onicecandidate STUN_SERVER_1 (Some c1)) with (Some i1).
  change (onicecandidate STUN_SERVER_2 (Some c2)) with (Some i2).
  assert (V1 : valid i1).
  { repeat split; eexists; (split; [reflexivity |]);
      [exact Ha1 | apply toString_nonempty | discriminate | discriminate]. }
  assert (V2 : valid i2).
  { repeat split; eexists; (split; [reflexivity |]);
      [exact Ha2 | apply toString_nonempty | discriminate | discriminate]. }
  rewrite (judgeNatType_simplified i1 i2 V1 V2).
  rewrite Part000_judgeNatType_cons.
  cbn [i1 i2 c1 c2 ip port serve_ip strict_eq prim_eqb Prim_string
          Prim_number RTCIceCandidate.address RTCIceCandidate.port].
  rewrite toString_eqb.
  apply String.eqb_neq in Hs1, Hs2. rewrite Hs1, Hs2. cbn [orb].
  destruct (String.eqb_spec a1 a2) as [Ea | Na];
    destruct (N.eqb_spec p1 p2) as [Ep | Np]; cbn [andb];
    (split; [split |]); try tauto; try discriminate;
    try (intros _ [E N]; contradiction);
    try (intros N; exfalso; apply N; split; assumption);
    intros; split; reflexivity.
Qed.

(** X16 on the candidates 1.2.3.4:5000 and 1.2.3.4:6001, where the two
    classifiers differ. *)
Lemma classifiers_agree_iff_instance :
  judgeNatType (onicecandidate STUN_SERVER_1 (Some srflx_5000))
               (onicecandidate STUN_SERVER_2 (Some srflx_6001))
  = Normal Symmetric
  /\ Part000.judgeNatType [srflx_5000] [srflx_6001]
     = Normal PortRestrictedCone.
Proof.
  apply (proj2 (classifiers_agree_iff "1.2.3.4" "1.2.3.4" 5000 6001
                  ltac:(discriminate) ltac:(discriminate)
                  ltac:(discriminate) ltac:(discriminate)));
    [reflexivity | discriminate].
Defined.
